(** * VIDEOTOPDF: a shallow embedding of [video_to_pdf_notes_script.py]

    The script turns the videos of [video/] into one PDF per video under
    [pdf/] and merges them into [pdf/final_merged.pdf].  Every function of
    the script is embedded below under its own name.  A file name is kept
    as the bytes of its directory entry and read by Python as the code
    points they encode, Python integers are [N], paths are lists of
    components, and the file system, the console, the log and the live
    image objects are threaded explicitly through a state-and-exception
    monad. *)

From Stdlib Require Import List String Ascii NArith PeanoNat Lia Bool.
From Stdlib Require Import DecimalString DecimalN.
From Stdlib Require Import Sorting.Sorted Sorting.Permutation.
Import ListNotations.
Open Scope string_scope.
Open Scope list_scope.
Open Scope N_scope.

(** ** Python builtins used by the script *)

Module Py.

(** The first code point of each block of ten decimal digits of Unicode
    (category Nd): ASCII, Arabic-Indic, ..., as [unicodedata] of
    Python 3.11 (Unicode 14) lists them. *)
Definition decimal_zeros : list N :=
  [48; 1632; 1776; 1984; 2406; 2534; 2662; 2790; 2918; 3046; 3174; 3302;
   3430; 3558; 3664; 3792; 3872; 4160; 4240; 6112; 6160; 6470; 6608; 6784;
   6800; 6992; 7088; 7232; 7248; 42528; 43216; 43264; 43472; 43504; 43600;
   44016; 65296; 66720; 68912; 69734; 69872; 69942; 70096; 70384; 70736;
   70864; 71248; 71360; 71472; 71904; 72016; 72784; 73040; 73120; 92768;
   92864; 93008; 120782; 120792; 120802; 120812; 120822; 123200; 123632;
   125264; 130032].

(** The decimal value of a code point, if it is a decimal digit: these are
    the characters [\d] matches in a [str] and [int] reads. *)
Definition decimal (cp : N) : option N :=
  match find (fun z => (z <=? cp) && (cp <? z + 10)) decimal_zeros with
  | Some z => Some (cp - z)
  | None => None
  end.

(** The payload of a UTF-8 continuation byte. *)
Definition continuation (c : ascii) : option N :=
  if (128 <=? N_of_ascii c) && (N_of_ascii c <? 192)
  then Some (N_of_ascii c - 128) else None.

(** The [str] Python makes of the bytes of a file name ([os.fsdecode]):
    UTF-8, where a byte that starts no well-formed sequence becomes the
    lone surrogate U+DC00 + byte. *)
Fixpoint utf8_decode (s : string) : list N :=
  match s with
  | EmptyString => []
  | String c0 s1 =>
      let b0 := N_of_ascii c0 in
      let escaped := (56320 + b0) :: utf8_decode s1 in
      if b0 <? 128 then b0 :: utf8_decode s1
      else if (194 <=? b0) && (b0 <? 224) then
        match s1 with
        | String c1 s2 =>
            match continuation c1 with
            | Some x1 => ((b0 - 192) * 64 + x1) :: utf8_decode s2
            | None => escaped
            end
        | EmptyString => escaped
        end
      else if (224 <=? b0) && (b0 <? 240) then
        match s1 with
        | String c1 (String c2 s3) =>
            match continuation c1, continuation c2 with
            | Some x1, Some x2 =>
                let cp := (b0 - 224) * 4096 + x1 * 64 + x2 in
                if (2048 <=? cp) && negb ((55296 <=? cp) && (cp <? 57344))
                then cp :: utf8_decode s3
                else escaped
            | _, _ => escaped
            end
        | _ => escaped
        end
      else if (240 <=? b0) && (b0 <? 245) then
        match s1 with
        | String c1 (String c2 (String c3 s4)) =>
            match continuation c1, continuation c2, continuation c3 with
            | Some x1, Some x2, Some x3 =>
                let cp := (b0 - 240) * 262144 + x1 * 4096 + x2 * 64 + x3 in
                if (65536 <=? cp) && (cp <? 1114112)
                then cp :: utf8_decode s4
                else escaped
            | _, _, _ => escaped
            end
        | _ => escaped
        end
      else escaped
  end.

(** The text matched by [(\d+)] anchored at the start: the greedy run of
    leading decimal digits (empty when [re.match] would return [None]). *)
Fixpoint leading_decimals (cps : list N) : list N :=
  match cps with
  | cp :: cps' =>
      match decimal cp with
      | Some _ => cp :: leading_decimals cps'
      | None => []
      end
  | [] => []
  end.

(** [re.match(r"(\d+)", name)], returning [m.group(1)]. *)
Definition re_match_digits (name : string) : option (list N) :=
  match leading_decimals (utf8_decode name) with
  | [] => None
  | ds => Some ds
  end.

(** [int(ds)] on a [str] of decimal digits, most significant digit first
    (a file name is far shorter than the digit strings [int] refuses). *)
Fixpoint int_acc (acc : N) (ds : list N) : N :=
  match ds with
  | [] => acc
  | cp :: ds' =>
      int_acc (10 * acc + match decimal cp with
                          | Some d => d
                          | None => 0
                          end) ds'
  end.

Definition int_digits (ds : list N) : N := int_acc 0 ds.

(** [int] on a string held as bytes. *)
Definition int (ds : string) : N := int_digits (utf8_decode ds).

(** [str(n)] for a non-negative integer. *)
Definition str (n : N) : string := NilEmpty.string_of_uint (N.to_uint n).

Fixpoint zeros (k : nat) : string :=
  match k with
  | O => EmptyString
  | S k' => String "0" (zeros k')
  end.

(** [s.zfill(width)] for an unsigned [s]. *)
Definition zfill (width : nat) (s : string) : string :=
  (zeros (width - String.length s)%nat ++ s)%string.

(** [sorted(l)] under a comparison [le]: ascending and stable.  Insertion
    from the right puts an element in front of the later elements it is
    not above, which is the one order a stable sort can return. *)
Section Sorted.
Context {A : Type} (le : A -> A -> bool).

Fixpoint insert (x : A) (l : list A) : list A :=
  match l with
  | [] => [x]
  | y :: l' => if le x y then x :: y :: l' else y :: insert x l'
  end.

Fixpoint sorted_by (l : list A) : list A :=
  match l with
  | [] => []
  | x :: l' => insert x (sorted_by l')
  end.
End Sorted.

(** [sorted(l, key=key)] for an integer key. *)
Definition sorted {A : Type} (key : A -> N) (l : list A) : list A :=
  sorted_by (fun x y => key x <=? key y) l.

(** [list.insert(i, x)]. *)
Fixpoint list_insert {A : Type} (i : nat) (x : A) (l : list A) : list A :=
  match i, l with
  | O, _ => x :: l
  | S i', y :: l' => y :: list_insert i' x l'
  | S _, [] => [x]
  end.

End Py.

(** ** Paths *)

Definition path := list string.

(** [p / name]. *)
Definition join (p : path) (name : string) : path := p ++ [name].

Notation "p // name" := (join p name) (at level 40, left associativity).

Module Path.

(** [p.name]. *)
Definition name (p : path) : string := last p EmptyString.

(** [p.parent]; the parent of ["."] is ["."]. *)
Definition parent (p : path) : path := removelast p.

(** The index of the last dot of [s] when it counts as the start of a
    suffix: [rfind('.')] with [0 < i < len - 1]. *)
Fixpoint rfind_dot (s : string) : option nat :=
  match s with
  | EmptyString => None
  | String c s' =>
      match rfind_dot s' with
      | Some i => Some (S i)
      | None => if Ascii.eqb c "." then Some O else None
      end
  end.

(** [p.stem]: the name without its last suffix. *)
Definition stem_of_name (s : string) : string :=
  match rfind_dot s with
  | Some i =>
      if (Nat.ltb 0 i && Nat.ltb i (String.length s - 1)%nat)%bool
      then substring 0 i s else s
  | None => s
  end.

Definition stem (p : path) : string := stem_of_name (name p).

(** [str(p)]. *)
Definition str (p : path) : string :=
  match p with
  | [] => "."
  | _ => String.concat "/" p
  end.

End Path.

(** ** Module constants *)

Definition BASE_DIR : path := [].
Definition VIDEO_DIR : path := BASE_DIR // "video".
Definition OUTPUT_DIR : path := BASE_DIR // "pdf".
Definition USE_GPU : bool := false.

(** ** Naming and ordering *)

Definition extract_number (name : string) : N :=
  match Py.re_match_digits name with
  | Some ds => Py.int_digits ds
  | None => 999999999
  end.

(** The names [process_video] derives from a video's file name:
    [number = str(extract_number(name)).zfill(3)], [OUTPUT_DIR / number]
    and [OUTPUT_DIR / f"{number}.pdf"]. *)
Definition number_of (video_name : string) : string :=
  Py.zfill 3 (Py.str (extract_number video_name)).

Definition img_dir_of (video_name : string) : path :=
  OUTPUT_DIR // number_of video_name.

Definition pdf_path_of (video_name : string) : path :=
  OUTPUT_DIR // (number_of video_name ++ ".pdf")%string.

(** An ASCII digit, as [str] writes them. *)
Definition is_ascii_digit (c : ascii) : bool :=
  (48 <=? N_of_ascii c) && (N_of_ascii c <=? 57).

Fixpoint all_digits (s : string) : bool :=
  match s with
  | EmptyString => true
  | String c s' => is_ascii_digit c && all_digits s'
  end.


(** The bytes of a string, as numbers. *)
Fixpoint codes (s : string) : list N :=
  match s with
  | EmptyString => []
  | String c s' => N_of_ascii c :: codes s'
  end.

(** A decimal digit of some script: the digit [d] of the block that
    starts at [z]. *)
Definition is_digit_of_block (cp z d : N) : Prop :=
  In z Py.decimal_zeros /\ d < 10 /\ cp = z + d.

Definition is_decimal_digit (cp : N) : Prop :=
  exists z d, is_digit_of_block cp z d.

(** A name that does not begin with a decimal digit. *)
Definition lacks_leading_number (name : string) : Prop :=
  forall cp rest, Py.utf8_decode name = cp :: rest -> ~ is_decimal_digit cp.

(** The number a run of digit values denotes in base ten. *)
Fixpoint base_ten (ds : list N) : N :=
  match ds with
  | [] => 0
  | d :: ds' => d * 10 ^ N.of_nat (List.length ds') + base_ten ds'
  end.

(** [a] comes somewhere before [b] in [l]. *)
Definition before {A : Type} (a b : A) (l : list A) : Prop :=
  exists l1 l2 l3, l = l1 ++ a :: l2 ++ b :: l3.


(** ** The world: file system, console, log, live images *)

(** What a file holds, as far as the script can tell: a picture that
    [Image.open] decodes, a PDF that [PdfReader] reads into its pages, or
    bytes that are neither. *)
Inductive content : Type :=
| Jpeg (picture : N)
| Pdf (pages : list N)
| Raw.

Inductive node : Type :=
| Dir
| File (c : content).

(** The entries below the working directory, in the order in which the
    operating system enumerates them. *)
Definition FS := list (path * node).

Inductive exn : Type :=
| FileExistsError (p : path)
| FileNotFoundError (p : path)
| NotADirectoryError (p : path)
| IsADirectoryError (p : path)
| DirectoryNotEmpty (p : path)
| UnidentifiedImageError (p : path)
| PdfReadError (p : path).

Inductive event : Type :=
| Print (args : list string)
| PrintError (video_name : string) (e : exn)
| LogError (e : exn)
| Run (cmd : list string)
| SavePdf (p : path) (pages : list N).

(** An image object returned by [Image.open(p).convert("RGB")]. *)
Record Image : Type := { img_src : path; img_picture : N }.

Record World : Type := {
  fs : FS;
  ffmpeg_installed : bool;
  trace : list event;
  live : list path
}.

Inductive result (A : Type) : Type :=
| Ok (a : A)
| Raise (e : exn).
Arguments Ok {A} a.
Arguments Raise {A} e.

Module Fs.

Fixpoint path_eqb (p q : path) : bool :=
  match p, q with
  | [], [] => true
  | a :: p', b :: q' => String.eqb a b && path_eqb p' q'
  | _, _ => false
  end.

Fixpoint path_compare (p q : path) : comparison :=
  match p, q with
  | [], [] => Eq
  | [], _ :: _ => Lt
  | _ :: _, [] => Gt
  | a :: p', b :: q' =>
      match String.compare a b with
      | Eq => path_compare p' q'
      | c => c
      end
  end.

Definition path_leb (p q : path) : bool :=
  match path_compare p q with
  | Gt => false
  | _ => true
  end.

Fixpoint assoc (p : path) (l : FS) : option node :=
  match l with
  | [] => None
  | (q, n) :: l' => if path_eqb p q then Some n else assoc p l'
  end.

(** The working directory is always there. *)
Definition lookup (l : FS) (p : path) : option node :=
  match p with
  | [] => Some Dir
  | _ => assoc p l
  end.

Definition exists_ (l : FS) (p : path) : bool :=
  match lookup l p with
  | Some _ => true
  | None => false
  end.

Definition is_dir (l : FS) (p : path) : bool :=
  match lookup l p with
  | Some Dir => true
  | _ => false
  end.

(** [fnmatch] for patterns made of literal characters and [*]. *)
Fixpoint fnmatch (pat name : string) : bool :=
  match pat with
  | EmptyString =>
      match name with
      | EmptyString => true
      | _ => false
      end
  | String c pat' =>
      if Ascii.eqb c "*" then
        (fix star (s : string) : bool :=
           fnmatch pat' s ||
           match s with
           | EmptyString => false
           | String _ s' => star s'
           end) name
      else
        match name with
        | String d name' => Ascii.eqb c d && fnmatch pat' name'
        | EmptyString => false
        end
  end.

Definition child_matching (dir : path) (pat : string) (e : path * node) : bool :=
  match fst e with
  | [] => false
  | _ => path_eqb (Path.parent (fst e)) dir && fnmatch pat (Path.name (fst e))
  end.

(** [dir.glob(pat)]: the children of [dir] whose name matches, and nothing
    when [dir] is not a directory. *)
Definition glob (l : FS) (dir : path) (pat : string) : list path :=
  if is_dir l dir then map fst (filter (child_matching dir pat) l) else [].

Fixpoint set_node (p : path) (n : node) (l : FS) : FS :=
  match l with
  | [] => [(p, n)]
  | (q, m) :: l' => if path_eqb p q then (p, n) :: l' else (q, m) :: set_node p n l'
  end.

Definition remove (p : path) (l : FS) : FS :=
  filter (fun e => negb (path_eqb p (fst e))) l.

Definition has_children (l : FS) (dir : path) : bool :=
  existsb (child_matching dir "*") l.

(** [os.mkdir(p)]. *)
Definition os_mkdir (p : path) (l : FS) : result FS :=
  match lookup l p with
  | Some _ => Raise (FileExistsError p)
  | None =>
      match lookup l (Path.parent p) with
      | Some Dir => Ok (l ++ [(p, Dir)])
      | Some (File _) => Raise (NotADirectoryError p)
      | None => Raise (FileNotFoundError p)
      end
  end.

(** [Path.mkdir(parents=False, exist_ok=exist_ok)]. *)
Definition mkdir_flat (exist_ok : bool) (p : path) (l : FS) : result FS :=
  match os_mkdir p l with
  | Ok l' => Ok l'
  | Raise (FileNotFoundError q) => Raise (FileNotFoundError q)
  | Raise e => if exist_ok && is_dir l p then Ok l else Raise e
  end.

(** [Path.mkdir(parents=True, exist_ok=exist_ok)] on the path [rev rp]:
    on [FileNotFoundError] the parent is made with
    [mkdir(parents=True, exist_ok=True)] and the directory itself with
    [mkdir(parents=False, exist_ok=exist_ok)]. *)
Fixpoint mkdir_parents (exist_ok : bool) (rp : list string) (l : FS) : result FS :=
  match os_mkdir (rev rp) l with
  | Ok l' => Ok l'
  | Raise (FileNotFoundError q) =>
      match rp with
      | [] => Raise (FileNotFoundError q)
      | _ :: rp' =>
          match mkdir_parents true rp' l with
          | Ok l1 => mkdir_flat exist_ok (rev rp) l1
          | Raise e => Raise e
          end
      end
  | Raise e => if exist_ok && is_dir l (rev rp) then Ok l else Raise e
  end.

Definition mkdir (parents exist_ok : bool) (p : path) (l : FS) : result FS :=
  if parents then mkdir_parents exist_ok (rev p) l else mkdir_flat exist_ok p l.

(** [open(p, "wb")] followed by writing [c]. *)
Definition write_file (p : path) (c : content) (l : FS) : result FS :=
  match lookup l p with
  | Some Dir => Raise (IsADirectoryError p)
  | _ =>
      match lookup l (Path.parent p) with
      | Some Dir => Ok (set_node p (File c) l)
      | Some (File _) => Raise (NotADirectoryError p)
      | None => Raise (FileNotFoundError p)
      end
  end.

(** [p.unlink()]. *)
Definition unlink (p : path) (l : FS) : result FS :=
  match lookup l p with
  | Some (File _) => Ok (remove p l)
  | Some Dir => Raise (IsADirectoryError p)
  | None => Raise (FileNotFoundError p)
  end.

(** [p.rmdir()]. *)
Definition rmdir (p : path) (l : FS) : result FS :=
  match p, lookup l p with
  | [], _ => Raise (DirectoryNotEmpty p)
  | _, Some Dir => if has_children l p then Raise (DirectoryNotEmpty p) else Ok (remove p l)
  | _, Some (File _) => Raise (NotADirectoryError p)
  | _, None => Raise (FileNotFoundError p)
  end.

End Fs.

(** ** The monad of the script: state that survives a raised exception *)

Definition M (A : Type) : Type := World -> result A * World.

Definition ret {A : Type} (a : A) : M A := fun w => (Ok a, w).

Definition raise {A : Type} (e : exn) : M A := fun w => (Raise e, w).

Definition bind {A B : Type} (c : M A) (k : A -> M B) : M B :=
  fun w =>
    match c w with
    | (Ok a, w') => k a w'
    | (Raise e, w') => (Raise e, w')
    end.

(** [try: c  except Exception as e: h e]. *)
Definition try_except {A : Type} (c : M A) (h : exn -> M A) : M A :=
  fun w =>
    match c w with
    | (Ok a, w') => (Ok a, w')
    | (Raise e, w') => h e w'
    end.

Notation "x <- c ;; k" := (bind c (fun x => k))
  (at level 61, c at next level, right associativity).
Notation "c >> k" := (bind c (fun _ => k))
  (at level 61, right associativity).

Fixpoint for_each {A : Type} (f : A -> M unit) (l : list A) : M unit :=
  match l with
  | [] => ret tt
  | x :: l' => f x >> for_each f l'
  end.

Fixpoint map_m {A B : Type} (f : A -> M B) (l : list A) : M (list B) :=
  match l with
  | [] => ret []
  | x :: l' => y <- f x ;; ys <- map_m f l' ;; ret (y :: ys)
  end.

Fixpoint fold_m {A B : Type} (f : B -> A -> M B) (l : list A) (b : B) : M B :=
  match l with
  | [] => ret b
  | x :: l' => b' <- f b x ;; fold_m f l' b'
  end.

Definition set_fs (l : FS) (w : World) : World :=
  {| fs := l; ffmpeg_installed := ffmpeg_installed w; trace := trace w; live := live w |}.

Definition set_live (h : list path) (w : World) : World :=
  {| fs := fs w; ffmpeg_installed := ffmpeg_installed w; trace := trace w; live := h |}.

Definition add_event (e : event) (w : World) : World :=
  {| fs := fs w; ffmpeg_installed := ffmpeg_installed w;
     trace := trace w ++ [e]; live := live w |}.

Definition emit (e : event) : M unit := fun w => (Ok tt, add_event e w).

Definition get_fs : M FS := fun w => (Ok (fs w), w).

(** Run a file-system operation: its result replaces the file system, its
    exception is raised with the file system untouched. *)
Definition fs_op (op : FS -> result FS) : M unit :=
  fun w =>
    match op (fs w) with
    | Ok l => (Ok tt, set_fs l w)
    | Raise e => (Raise e, w)
    end.

Definition glob (dir : path) (pat : string) : M (list path) :=
  l <- get_fs ;; ret (Fs.glob l dir pat).

Definition path_exists (p : path) : M bool :=
  l <- get_fs ;; ret (Fs.exists_ l p).

Definition nl : string := String (ascii_of_nat 10) EmptyString.

(** ** Library calls *)

Fixpoint remove_first (p : path) (h : list path) : list path :=
  match h with
  | [] => []
  | q :: h' => if Fs.path_eqb p q then h' else q :: remove_first p h'
  end.

(** [Image.open(p).convert("RGB")]: the image object stays live until it is
    closed. *)
Definition Image_open (p : path) : M Image :=
  fun w =>
    match Fs.lookup (fs w) p with
    | Some (File (Jpeg px)) =>
        (Ok {| img_src := p; img_picture := px |}, set_live (live w ++ [p]) w)
    | Some (File _) => (Raise (UnidentifiedImageError p), w)
    | Some Dir => (Raise (IsADirectoryError p), w)
    | None => (Raise (FileNotFoundError p), w)
    end.

(** [img.close()]. *)
Definition Image_close (img : Image) : M unit :=
  fun w => (Ok tt, set_live (remove_first (img_src img) (live w)) w).

(** [first.save(pdf_path, save_all=True, append_images=others)]. *)
Definition Image_save (first : Image) (pdf_path : path) (others : list Image) : M unit :=
  let pages := img_picture first :: map img_picture others in
  fs_op (Fs.write_file pdf_path (Pdf pages)) >> emit (SavePdf pdf_path pages).

(** [PdfReader(str(p))], as the pages [writer.append] takes from it. *)
Definition PdfReader (p : path) : M (list N) :=
  fun w =>
    match Fs.lookup (fs w) p with
    | Some (File (Pdf pages)) => (Ok pages, w)
    | Some (File _) => (Raise (PdfReadError p), w)
    | Some Dir => (Raise (IsADirectoryError p), w)
    | None => (Raise (FileNotFoundError p), w)
    end.

Definition safe_print (args : list string) : M unit := emit (Print args).

Definition ffmpeg_exists : M bool := fun w => (Ok (ffmpeg_installed w), w).

Definition nonempty {A : Type} (l : list A) : bool :=
  match l with
  | [] => false
  | _ :: _ => true
  end.

(** ** The script *)

Section Script.

(** What the external decoder does to the file system when it is run with
    a command line. *)
Variable ffmpeg : list string -> FS -> FS.

(** [subprocess.run(cmd, ...)]: the exit status is not looked at. *)
Definition subprocess_run (cmd : list string) : M unit :=
  fun w =>
    if ffmpeg_installed w
    then (Ok tt, add_event (Run cmd) (set_fs (ffmpeg cmd (fs w)) w))
    else (Raise (FileNotFoundError ["ffmpeg"]), w).

Definition extract_frames (video_path output_subfolder : path) : M bool :=
  fs_op (Fs.mkdir true true output_subfolder) >>
  frames <- glob output_subfolder "frame_*.jpg" ;;
  if nonempty frames then
    safe_print ["Frames already exist for:"; Path.name video_path] >>
    ret true
  else
    safe_print ["Extracting frames for:"; Path.name video_path] >>
    let output_pattern := Path.str (output_subfolder // "frame_%04d.jpg") in
    let cmd := ["ffmpeg"; "-i"; Path.str video_path; "-vf"; "fps=0.02"] in
    let cmd := if USE_GPU
               then Py.list_insert 2 "cuda" (Py.list_insert 1 "-hwaccel" cmd)
               else cmd in
    let cmd := cmd ++ [output_pattern] in
    subprocess_run cmd >>
    safe_print ["Frame extraction complete for:"; Path.name video_path] >>
    ret true.

Definition images_to_pdf (image_folder pdf_path : path) : M bool :=
  there <- path_exists pdf_path ;;
  if there then
    safe_print ["PDF exists → skipping:"; Path.name pdf_path] >>
    ret true
  else
    found <- glob image_folder "*.jpg" ;;
    match Py.sorted_by Fs.path_leb found with
    | [] =>
        safe_print ["NO frames found for:"; Path.str image_folder] >>
        ret false
    | p0 :: rest =>
        safe_print ["Creating PDF:"; Path.name pdf_path] >>
        first <- Image_open p0 ;;
        others <- map_m Image_open rest ;;
        Image_save first pdf_path others >>
        Image_close first >>
        for_each Image_close others >>
        safe_print ["PDF created:"; Path.name pdf_path] >>
        ret true
    end.

Definition delete_frames (folder : path) : M unit :=
  found <- glob folder "*.jpg" ;;
  for_each (fun f => fs_op (Fs.unlink f)) found >>
  try_except (fs_op (Fs.rmdir folder)) (fun _ => ret tt).

Definition process_video (video_path : path) : M bool :=
  try_except
    (safe_print [(nl ++ "Processing:")%string; Path.name video_path] >>
     let img_dir := img_dir_of (Path.name video_path) in
     let pdf_path := pdf_path_of (Path.name video_path) in
     extract_frames video_path img_dir >>
     images_to_pdf img_dir pdf_path >>
     delete_frames img_dir >>
     ret true)
    (fun e =>
       emit (PrintError (Path.name video_path) e) >>
       emit (LogError e) >>
       ret false).

Definition merge_all_pdfs : M unit :=
  let merged := OUTPUT_DIR // "final_merged.pdf" in
  there <- path_exists merged ;;
  if there then
    safe_print ["Merged PDF already exists — skipping merge."]
  else
    found <- glob OUTPUT_DIR "*.pdf" ;;
    let pdfs := Py.sorted (fun f => extract_number (Path.stem f)) found in
    safe_print [(nl ++ "Merging PDFs...")%string] >>
    writer <- fold_m (fun writer p =>
                        safe_print ["Adding:"; Path.name p] >>
                        reader <- PdfReader p ;;
                        ret (writer ++ reader)) pdfs [] ;;
    fs_op (Fs.write_file merged (Pdf writer)) >>
    safe_print ["Final merged PDF created:"; Path.str merged].

(** The pool of four workers is run as one worker taking the videos in
    order; no claim below looks at more than one video at a time. *)
Definition main : M unit :=
  tool <- ffmpeg_exists ;;
  if negb tool then
    safe_print ["ERROR: ffmpeg not installed."]
  else
    there <- path_exists VIDEO_DIR ;;
    if negb there then
      safe_print ["ERROR: 'video' folder missing."]
    else
      fs_op (Fs.mkdir false true OUTPUT_DIR) >>
      mp4 <- glob VIDEO_DIR "*.mp4" ;;
      webm <- glob VIDEO_DIR "*.webm" ;;
      mkv <- glob VIDEO_DIR "*.mkv" ;;
      let videos := Py.sorted (fun f => extract_number (Path.name f))
                              (mp4 ++ webm ++ mkv) in
      match videos with
      | [] => safe_print ["No video files found in /video/"]
      | _ :: _ =>
          safe_print [(nl ++ "Starting multi-threaded processing..." ++ nl)%string] >>
          for_each (fun v => process_video v >> ret tt) videos >>
          merge_all_pdfs >>
          safe_print [(nl ++ "ALL DONE.")%string]
      end.

End Script.

(** ** What the claims observe *)

(** How often the external tool was run. *)
Fixpoint runs (t : list event) : nat :=
  match t with
  | [] => O
  | Run _ :: t' => S (runs t')
  | _ :: t' => runs t'
  end.

(** How often a PDF was assembled. *)
Fixpoint saves (t : list event) : nat :=
  match t with
  | [] => O
  | SavePdf _ _ :: t' => S (saves t')
  | _ :: t' => saves t'
  end.

(** How often an assembly was started: [images_to_pdf] prints this line
    right before it opens the first image. *)
Definition starts_assembly (e : event) : bool :=
  match e with
  | Print (s :: _) => String.eqb s "Creating PDF:"
  | _ => false
  end.

Definition assemblies (t : list event) : nat :=
  List.length (filter starts_assembly t).


Definition readable (l : FS) (p : path) : Prop :=
  exists pages, Fs.lookup l p = Some (File (Pdf pages)).

(** The merged file and the sort key of [merge_all_pdfs]. *)
Definition merged_pdf : path := OUTPUT_DIR // "final_merged.pdf".

Definition pdf_key (f : path) : N := extract_number (Path.stem f).

(** The command line [extract_frames] builds. *)
Definition ffmpeg_cmd (video_path output_subfolder : path) : list string :=
  ["ffmpeg"; "-i"; Path.str video_path; "-vf"; "fps=0.02";
   Path.str (output_subfolder // "frame_%04d.jpg")].

(** How often an error was written to the log. *)
Fixpoint logged (t : list event) : nat :=
  match t with
  | [] => O
  | LogError _ :: t' => S (logged t')
  | _ :: t' => logged t'
  end.

Definition is_run (e : event) : bool :=
  match e with
  | Run _ => true
  | _ => false
  end.

Definition is_error_report (e : event) : bool :=
  match e with
  | PrintError _ _ | LogError _ => true
  | _ => false
  end.

(** A computation that only adds events passing [ok] to the trace. *)
Definition emits {A : Type} (ok : event -> bool) (c : M A) : Prop :=
  forall w, exists t, trace (snd (c w)) = trace w ++ t /\ forallb ok t = true.

(** Each path is listed once, as in a directory listing. *)
Definition unique_paths (l : FS) : Prop := NoDup (map fst l).

(** Every entry lies in a directory that is there. *)
Definition parents_present (l : FS) : Prop :=
  forall p n, p <> [] -> Fs.lookup l p = Some n ->
              Fs.is_dir l (Path.parent p) = true.

Definition is_file (l : FS) (p : path) : Prop :=
  exists c, Fs.lookup l p = Some (File c).




(** The file system after unlinking [ps], in order. *)
Definition unlink_all (ps : list path) (l : FS) : FS :=
  fold_left (fun l p => Fs.remove p l) ps l.

(** The file system after [rmdir] was tried and its failure ignored. *)
Definition after_rmdir (folder : path) (l : FS) : FS :=
  match Fs.rmdir folder l with
  | Ok l' => l'
  | Raise _ => l
  end.

(** ** Worlds used as examples *)

(** A decoder that writes two frames of the first video. *)
Definition tool_two_frames (cmd : list string) (l : FS) : FS :=
  l ++ [(["pdf"; "001"; "frame_0001.jpg"], File (Jpeg 1));
        (["pdf"; "001"; "frame_0002.jpg"], File (Jpeg 2))].

(** A decoder that fails and writes nothing. *)
Definition tool_no_frames (cmd : list string) (l : FS) : FS := l.

Definition world_of (l : FS) : World :=
  {| fs := l; ffmpeg_installed := true; trace := []; live := [] |}.

Definition one_video : FS :=
  [(["video"], Dir); (["video"; "001 a.mp4"], File Raw); (["pdf"], Dir)].

Definition video_001 : path := ["video"; "001 a.mp4"].

Definition frame_1 : path := ["pdf"; "001"; "frame_0001.jpg"].
Definition frame_2 : path := ["pdf"; "001"; "frame_0002.jpg"].

(** The frame directory of the first video, empty. *)
Definition empty_frame_dir : FS := one_video ++ [(["pdf"; "001"], Dir)].

(** The frame directory with two decodable frames. *)
Definition with_frames : FS :=
  empty_frame_dir ++ [(frame_1, File (Jpeg 1)); (frame_2, File (Jpeg 2))].

(** The frame directory with a second frame that does not decode. *)
Definition with_bad_frame : FS :=
  empty_frame_dir ++ [(frame_1, File (Jpeg 1)); (frame_2, File Raw)].

(** An input directory without a video and no output directory yet. *)
Definition no_videos : FS :=
  [(["video"], Dir); (["video"; "notes.txt"], File Raw)].

(** An output directory with two numbered PDFs and one without a number. *)
Definition numbered_pdfs : FS :=
  [(["pdf"], Dir);
   (["pdf"; "notes.pdf"], File (Pdf [7]));
   (["pdf"; "010.pdf"], File (Pdf [10; 11]));
   (["pdf"; "002.pdf"], File (Pdf [2]))].

(** An output directory where a leading number exceeds 999999999. *)
Definition large_number_pdfs : FS :=
  [(["pdf"], Dir);
   (["pdf"; "1000000000.pdf"], File (Pdf [8]));
   (["pdf"; "notes.pdf"], File (Pdf [7]))].

(** An output directory with a file that is no PDF. *)
Definition broken_pdfs : FS :=
  [(["pdf"], Dir);
   (["pdf"; "001.pdf"], File (Pdf [1]));
   (["pdf"; "002.pdf"], File Raw)].

(** The frame directory with two frames and a file that is no frame. *)
Definition with_leftover : FS :=
  with_frames ++ [(["pdf"; "001"; "notes.txt"], File Raw)].

(** The frame directory with a directory named like a frame. *)
Definition with_jpg_dir : FS :=
  empty_frame_dir ++ [(["pdf"; "001"; "x.jpg"], Dir)].

(** * Properties *)

(** ** Sorting *)

Section SortedFacts.
Context {A : Type} (key : A -> N).

Definition key_le (x y : A) : Prop := key x <= key y.

Lemma insert_perm (x : A) (l : list A) :
  Permutation (Py.insert (fun a b => key a <=? key b) x l) (x :: l).
Proof.
  induction l as [|y l IH]; simpl.
  - apply Permutation_refl.
  - destruct (key x <=? key y).
    + apply Permutation_refl.
    + eapply perm_trans; [apply perm_skip, IH | apply perm_swap].
Qed.

Lemma sorted_perm (l : list A) : Permutation (Py.sorted key l) l.
Proof.
  unfold Py.sorted.
  induction l as [|x l IH]; simpl.
  - constructor.
  - eapply perm_trans; [apply insert_perm | apply perm_skip, IH].
Qed.

Lemma insert_strongly_sorted (x : A) (l : list A) :
  StronglySorted key_le l ->
  StronglySorted key_le (Py.insert (fun a b => key a <=? key b) x l).
Proof.
  induction 1 as [|y l Hs IH Hy]; simpl.
  - repeat constructor.
  - destruct (key x <=? key y) eqn:E.
    + apply N.leb_le in E.
      constructor; [constructor; assumption|].
      constructor; [exact E|].
      eapply Forall_impl; [|exact Hy].
      unfold key_le; intros z Hz; lia.
    + apply N.leb_gt in E.
      constructor; [exact IH|].
      apply Forall_forall; intros z Hz.
      apply (Permutation_in _ (insert_perm x l)) in Hz.
      destruct Hz as [<-|Hz].
      * unfold key_le; lia.
      * rewrite Forall_forall in Hy; apply Hy, Hz.
Qed.

Lemma sorted_strongly_sorted (l : list A) :
  StronglySorted key_le (Py.sorted key l).
Proof.
  unfold Py.sorted.
  induction l as [|x l IH]; simpl.
  - constructor.
  - apply insert_strongly_sorted, IH.
Qed.

(** In a list sorted by key, a later element is not below an earlier one. *)
Lemma strongly_sorted_before (a b : A) (l : list A) :
  StronglySorted key_le l -> before a b l -> key a <= key b.
Proof.
  intros Hs (l1 & l2 & l3 & ->).
  induction l1 as [|x l1 IH]; simpl in Hs.
  - inversion Hs as [|? ? _ Hall]; subst.
    rewrite Forall_forall in Hall.
    apply Hall, in_or_app; right; left; reflexivity.
  - inversion Hs; subst; auto.
Qed.

Lemma in_split_before (a b : A) (l : list A) :
  StronglySorted key_le l -> In a l -> In b l -> key a < key b -> before a b l.
Proof.
  intros Hs Ha Hb Hlt.
  destruct (in_split _ _ Ha) as (l1 & r & ->).
  apply in_app_or in Hb.
  destruct Hb as [Hb|[Hb|Hb]].
  - exfalso.
    destruct (in_split _ _ Hb) as (m1 & m2 & ->).
    assert (key b <= key a).
    { apply (strongly_sorted_before b a _ Hs).
      exists m1, m2, r. rewrite <- app_assoc. reflexivity. }
    lia.
  - subst b. lia.
  - destruct (in_split _ _ Hb) as (m1 & m2 & ->).
    exists l1, m1, m2. reflexivity.
Qed.

(** Where the keys differ, the sorted list has the smaller key first. *)
Lemma sorted_orders (a b : A) (l : list A) :
  In a l -> In b l -> key a < key b ->
  before a b (Py.sorted key l) /\ ~ before b a (Py.sorted key l).
Proof.
  intros Ha Hb Hlt. split.
  - apply in_split_before; auto using sorted_strongly_sorted.
    + apply (Permutation_in _ (Permutation_sym (sorted_perm l))), Ha.
    + apply (Permutation_in _ (Permutation_sym (sorted_perm l))), Hb.
  - intros Hba.
    apply strongly_sorted_before in Hba; [lia | apply sorted_strongly_sorted].
Qed.
End SortedFacts.

(** ** Decimal digits *)

Lemma decimal_some (cp d : N) :
  Py.decimal cp = Some d -> exists z, is_digit_of_block cp z d.
Proof.
  unfold Py.decimal.
  destruct (find _ Py.decimal_zeros) as [z|] eqn:E; [|discriminate].
  apply find_some in E as [Hin Ht]. intros H; inversion H; subst.
  apply andb_true_iff in Ht as [H1 H2].
  apply N.leb_le in H1. apply N.ltb_lt in H2.
  exists z. repeat split; [exact Hin | lia | lia].
Qed.

(** The blocks of the table do not overlap: every digit of every block is
    found with its own value. *)
Lemma decimal_blocks_checked :
  forallb
    (fun z =>
       forallb (fun d => match Py.decimal (z + d) with
                         | Some d' => d' =? d
                         | None => false
                         end) [0; 1; 2; 3; 4; 5; 6; 7; 8; 9])
    Py.decimal_zeros = true.
Proof. vm_compute. reflexivity. Qed.

Lemma decimal_block (cp z d : N) :
  is_digit_of_block cp z d -> Py.decimal cp = Some d.
Proof.
  intros (Hz & Hd & ->).
  pose proof decimal_blocks_checked as H.
  rewrite forallb_forall in H. specialize (H z Hz).
  rewrite forallb_forall in H.
  assert (Hin : In d [0; 1; 2; 3; 4; 5; 6; 7; 8; 9]) by (simpl; lia).
  specialize (H d Hin).
  destruct (Py.decimal (z + d)) as [d'|]; [|discriminate].
  apply N.eqb_eq in H. now subst.
Qed.

(** The table has the 66 blocks of Unicode 14, in ascending order. *)
Example decimal_zeros_counted :
  List.length Py.decimal_zeros = 66%nat /\
  StronglySorted (fun z z' => z + 10 <= z') Py.decimal_zeros /\
  Py.decimal 57 = Some 9 /\ Py.decimal 58 = None /\
  Py.decimal 1641 = Some 9 /\ Py.decimal 178 = None /\
  Py.decimal 130041 = Some 9 /\ Py.decimal 130042 = None.
Proof.
  split; [reflexivity|]. split; [|repeat split].
  unfold Py.decimal_zeros.
  repeat (constructor; [|repeat (constructor; [lia|]); constructor]).
  constructor.
Qed.

Lemma decimal_none (cp : N) : Py.decimal cp = None -> ~ is_decimal_digit cp.
Proof.
  intros H (z & d & Hb). apply decimal_block in Hb. congruence.
Qed.

Lemma decimal_ascii_digit (c : ascii) :
  is_ascii_digit c = true -> Py.decimal (N_of_ascii c) = Some (N_of_ascii c - 48).
Proof.
  intros H. unfold is_ascii_digit in H.
  apply andb_true_iff in H as [H1 H2]. apply N.leb_le in H1, H2.
  apply (decimal_block _ 48). split; [left; reflexivity|]. lia.
Qed.

Lemma decode_ascii (c : ascii) (s : string) :
  N_of_ascii c < 128 ->
  Py.utf8_decode (String c s) = N_of_ascii c :: Py.utf8_decode s.
Proof.
  intros H. apply N.ltb_lt in H. cbn [Py.utf8_decode]. now rewrite H.
Qed.

Lemma ascii_digit_is_ascii (c : ascii) : is_ascii_digit c = true -> N_of_ascii c < 128.
Proof.
  unfold is_ascii_digit. intros H.
  apply andb_true_iff in H as [_ H]. apply N.leb_le in H. lia.
Qed.

Lemma decode_digits (ds rest : string) :
  all_digits ds = true ->
  Py.utf8_decode (ds ++ rest) = codes ds ++ Py.utf8_decode rest.
Proof.
  induction ds as [|c ds IH]; intros H; [reflexivity|].
  cbn [all_digits] in H. apply andb_true_iff in H as [Hc Hd].
  change (String c ds ++ rest)%string with (String c (ds ++ rest)).
  rewrite decode_ascii by (apply ascii_digit_is_ascii, Hc).
  cbn [codes app]. now rewrite IH.
Qed.

Lemma decode_all_digits (ds : string) :
  all_digits ds = true -> Py.utf8_decode ds = codes ds.
Proof.
  intros H. pose proof (decode_digits ds EmptyString H) as E.
  assert (A : forall s, (s ++ "")%string = s)
    by (induction s as [|c s IHs]; simpl; [reflexivity | now rewrite IHs]).
  rewrite A in E. rewrite E. cbn [Py.utf8_decode]. apply app_nil_r.
Qed.

Lemma leading_decimals_codes (ds : string) (r : list N) :
  all_digits ds = true ->
  Py.leading_decimals (codes ds ++ r) = codes ds ++ Py.leading_decimals r.
Proof.
  induction ds as [|c ds IH]; intros H; [reflexivity|].
  cbn [all_digits] in H. apply andb_true_iff in H as [Hc Hd].
  cbn [codes app Py.leading_decimals].
  rewrite (decimal_ascii_digit c Hc), IH by exact Hd. reflexivity.
Qed.

Lemma all_digits_app (s t : string) :
  all_digits (s ++ t) = all_digits s && all_digits t.
Proof.
  induction s as [|c s IH]; simpl; [reflexivity|].
  rewrite IH, andb_assoc. reflexivity.
Qed.

Lemma all_digits_zeros (k : nat) : all_digits (Py.zeros k) = true.
Proof. induction k; simpl; auto. Qed.

Lemma all_digits_string_of_uint (d : Decimal.uint) :
  all_digits (NilEmpty.string_of_uint d) = true.
Proof. induction d; simpl; auto. Qed.

(** ** The leading number *)

(** A run of digits is read in base ten. *)
Lemma int_acc_run (run : list (N * N)) (acc : N) :
  Forall (fun zd => In (fst zd) Py.decimal_zeros /\ snd zd < 10) run ->
  Py.int_acc acc (map (fun zd => fst zd + snd zd) run) =
  acc * 10 ^ N.of_nat (List.length run) + base_ten (map snd run).
Proof.
  intros H. revert acc. induction H as [|[z d] run [Hz Hd] Hrun IH]; intros acc.
  - simpl. lia.
  - cbn [map Py.int_acc base_ten fst snd List.length].
    rewrite (decimal_block (z + d) z d) by (repeat split; assumption).
    rewrite IH, length_map, Nat2N.inj_succ, N.pow_succ_r'. lia.
Qed.

Lemma leading_decimals_run (run : list (N * N)) (rest : list N) :
  Forall (fun zd => In (fst zd) Py.decimal_zeros /\ snd zd < 10) run ->
  (forall cp rest', rest = cp :: rest' -> ~ is_decimal_digit cp) ->
  Py.leading_decimals (map (fun zd => fst zd + snd zd) run ++ rest) =
  map (fun zd => fst zd + snd zd) run.
Proof.
  intros H Hrest. induction H as [|[z d] run [Hz Hd] Hrun IH].
  - destruct rest as [|cp rest']; [reflexivity|].
    cbn [map app Py.leading_decimals].
    destruct (Py.decimal cp) as [d|] eqn:E; [|reflexivity].
    exfalso. apply (Hrest cp rest' eq_refl).
    apply decimal_some in E as [z Hb]. exists z, d. exact Hb.
  - cbn [map app Py.leading_decimals fst snd].
    rewrite (decimal_block (z + d) z d) by (repeat split; assumption).
    now rewrite IH.
Qed.

Lemma extract_number_run (run : list (N * N)) (rest : list N) (name : string) :
  run <> [] ->
  Forall (fun zd => In (fst zd) Py.decimal_zeros /\ snd zd < 10) run ->
  (forall cp rest', rest = cp :: rest' -> ~ is_decimal_digit cp) ->
  Py.utf8_decode name = map (fun zd => fst zd + snd zd) run ++ rest ->
  extract_number name = base_ten (map snd run).
Proof.
  intros Hne Hrun Hrest Hname.
  unfold extract_number, Py.re_match_digits.
  rewrite Hname, (leading_decimals_run run rest Hrun Hrest).
  destruct run as [|zd run]; [contradiction|].
  cbn [map]. unfold Py.int_digits.
  change (fst zd + snd zd :: map (fun zd0 => fst zd0 + snd zd0) run)
    with (map (fun zd0 : N * N => fst zd0 + snd zd0) (zd :: run)).
  rewrite (int_acc_run (zd :: run) 0 Hrun), N.mul_0_l, N.add_0_l.
  reflexivity.
Qed.

Lemma extract_number_sentinel (name : string) :
  lacks_leading_number name -> extract_number name = 999999999.
Proof.
  intros H. unfold extract_number, Py.re_match_digits.
  destruct (Py.utf8_decode name) as [|cp rest] eqn:E; [reflexivity|].
  cbn [Py.leading_decimals].
  destruct (Py.decimal cp) as [d|] eqn:D; [|reflexivity].
  exfalso. apply (H cp rest E).
  apply decimal_some in D as [z Hb]. exists z, d. exact Hb.
Qed.

Example extract_number_docstring : extract_number "012 Lecture.mp4" = 12.
Proof. reflexivity. Qed.

Example number_of_docstring : number_of "012 Lecture.mp4" = "012".
Proof. reflexivity. Qed.

Example stem_of_pdf : Path.stem ["pdf"; "012.pdf"] = "012".
Proof. reflexivity. Qed.

(** Digits of other scripts count: Arabic-Indic (two bytes each),
    Devanagari and full-width (three bytes), mathematical bold (four
    bytes), also mixed with ASCII; a superscript two is no decimal digit
    and a byte that is not UTF-8 is none either. *)
Example extract_number_other_scripts :
  extract_number "٣ intro.mp4" = 3 /\
  extract_number "१२ intro.mp4" = 12 /\
  extract_number "１２.mp4" = 12 /\
  extract_number "𝟏𝟎 intro.mp4" = 10 /\
  extract_number "1٣ intro.mp4" = 13 /\
  extract_number "² intro.mp4" = 999999999 /\
  extract_number (String (ascii_of_nat 217) "3.mp4") = 999999999.
Proof. repeat split. Qed.

(** Settles [lacks_leading_number] and the like on a concrete name. *)
Ltac no_leading_number :=
  let cp := fresh "cp" in
  let rest := fresh "rest" in
  let E := fresh "E" in
  intros cp rest E; vm_compute in E; inversion E; subst;
  apply decimal_none; reflexivity.

Lemma in_decimal_zeros (z : N) :
  existsb (N.eqb z) Py.decimal_zeros = true -> In z Py.decimal_zeros.
Proof.
  intros H. apply existsb_exists in H as (x & Hin & E).
  apply N.eqb_eq in E. now subst.
Qed.

(** X16: the key of a name.  A name whose characters start with a run of
    decimal digits of any script, followed by no further digit, gets the
    run read in base ten; a name whose first character is no decimal digit
    (or that is empty) gets 999999999; and in a list sorted on this key
    such a name comes after every name whose key is below 999999999 (here
    [file_name] is [name] for the videos and [stem] for the PDFs). *)
Theorem extract_number_sort_key :
  forall (run : list (N * N)) (rest : list N) (name other : string)
         (A : Type) (file_name : A -> string) (a b : A) (l : list A),
    (run <> [] ->
     Forall (fun zd => In (fst zd) Py.decimal_zeros /\ snd zd < 10) run ->
     (forall cp rest', rest = cp :: rest' -> ~ is_decimal_digit cp) ->
     Py.utf8_decode name = map (fun zd => fst zd + snd zd) run ++ rest ->
     extract_number name = base_ten (map snd run)) /\
    (lacks_leading_number other -> extract_number other = 999999999) /\
    (extract_number (file_name a) < 999999999 ->
     lacks_leading_number (file_name b) ->
     In a l -> In b l ->
     before a b (Py.sorted (fun f => extract_number (file_name f)) l) /\
     ~ before b a (Py.sorted (fun f => extract_number (file_name f)) l)).
Proof.
  intros run rest name other A file_name a b l.
  split; [|split].
  - apply extract_number_run.
  - apply extract_number_sentinel.
  - intros Ha Hb Hina Hinb.
    apply (sorted_orders (fun f => extract_number (file_name f))); auto.
    rewrite (extract_number_sentinel _ Hb). exact Ha.
Qed.

Lemma extract_number_sort_key_witness :
  extract_number "0٣4 Lecture.mp4" = 34 /\
  extract_number "Lecture.mp4" = 999999999 /\
  before "012 a.mp4" "intro.mp4"
    (Py.sorted (fun f => extract_number f) ["intro.mp4"; "012 a.mp4"]).
Proof.
  destruct (extract_number_sort_key
              [(48, 0); (1632, 3); (48, 4)] (codes " Lecture.mp4")
              "0٣4 Lecture.mp4" "Lecture.mp4"
              string (fun f => f) "012 a.mp4" "intro.mp4"
              ["intro.mp4"; "012 a.mp4"]) as (H1 & H2 & H3).
  split; [|split].
  - apply H1.
    + discriminate.
    + repeat constructor; cbn [fst snd];
        solve [apply in_decimal_zeros; reflexivity | reflexivity].
    + no_leading_number.
    + reflexivity.
  - apply H2. no_leading_number.
  - apply H3.
    + reflexivity.
    + no_leading_number.
    + right; left; reflexivity.
    + left; reflexivity.
Defined.

(** C1 fails on the code: the sentinel is meant to send a name without a
    number to the bottom, and a leading number above it sorts after such
    a name. *)
Theorem sentinel_key_not_always_last :
  extract_number "1000000000.mp4" = 1000000000 /\
  extract_number "notes.mp4" = 999999999 /\
  Py.sorted extract_number ["1000000000.mp4"; "notes.mp4"]
  = ["notes.mp4"; "1000000000.mp4"].
Proof. repeat split. Qed.

(** ** The names derived from a video *)

Lemma int_acc_of_uint_acc (d : Decimal.uint) (acc : positive) :
  Py.int_acc (N.pos acc) (codes (NilEmpty.string_of_uint d))
  = N.pos (Pos.of_uint_acc d acc).
Proof.
  revert acc; induction d; intros acc;
    cbn [NilEmpty.string_of_uint codes Py.int_acc Pos.of_uint_acc];
    try reflexivity;
    match goal with
    | |- context [Py.decimal ?x] =>
        let v := eval vm_compute in (Py.decimal x) in
        change (Py.decimal x) with v
    end; cbv iota;
    match goal with
    | |- Py.int_acc ?x _ = N.pos (Pos.of_uint_acc _ ?y) =>
        replace x with (N.pos y) by lia; apply IHd
    end.
Qed.

Lemma int_of_uint (d : Decimal.uint) :
  Py.int (NilEmpty.string_of_uint d) = N.of_uint d.
Proof.
  unfold Py.int, Py.int_digits, N.of_uint.
  rewrite decode_all_digits by apply all_digits_string_of_uint.
  induction d; cbn [NilEmpty.string_of_uint codes Py.int_acc Pos.of_uint];
    try reflexivity;
    match goal with
    | |- context [Py.decimal ?x] =>
        let v := eval vm_compute in (Py.decimal x) in
        change (Py.decimal x) with v
    end; cbv iota;
    try exact IHd;
    match goal with
    | |- Py.int_acc ?x _ = N.pos (Pos.of_uint_acc _ ?y) =>
        change x with (N.pos y); apply int_acc_of_uint_acc
    end.
Qed.

(** [int(str(n)) == n]. *)
Lemma int_str (n : N) : Py.int (Py.str n) = n.
Proof. unfold Py.str. rewrite int_of_uint. apply Unsigned.of_to. Qed.

Lemma decode_zeros (k : nat) (s : string) :
  Py.utf8_decode (Py.zeros k ++ s) = repeat 48 k ++ Py.utf8_decode s.
Proof.
  induction k as [|k IH]; [reflexivity|].
  change (Py.zeros (S k) ++ s)%string with (String "0" (Py.zeros k ++ s)).
  rewrite decode_ascii by reflexivity. cbn [repeat app]. now rewrite IH.
Qed.

Lemma int_acc_zeros (k : nat) (ds : list N) :
  Py.int_acc 0 (repeat 48 k ++ ds) = Py.int_acc 0 ds.
Proof. induction k as [|k IH]; [reflexivity | exact IH]. Qed.

Lemma int_zeros (k : nat) (s : string) : Py.int (Py.zeros k ++ s) = Py.int s.
Proof. unfold Py.int, Py.int_digits. now rewrite decode_zeros, int_acc_zeros. Qed.

(** The identifier reads back as the key. *)
Lemma int_number_of (video_name : string) :
  Py.int (number_of video_name) = extract_number video_name.
Proof. unfold number_of, Py.zfill. rewrite int_zeros. apply int_str. Qed.

Lemma length_append (s t : string) :
  String.length (s ++ t) = (String.length s + String.length t)%nat.
Proof. induction s; simpl; auto. Qed.

Lemma append_cancel_r (s1 s2 t : string) : (s1 ++ t)%string = (s2 ++ t)%string -> s1 = s2.
Proof.
  intros H.
  assert (L : String.length s1 = String.length s2).
  { apply (f_equal String.length) in H. rewrite !length_append in H. lia. }
  revert s2 H L; induction s1 as [|c s1 IH]; intros [|d s2] H L;
    simpl in *; try discriminate; auto.
  inversion H; subst. f_equal. apply IH; auto.
Qed.

Lemma number_of_inj (a b : string) :
  number_of a = number_of b -> extract_number a = extract_number b.
Proof. intros H. rewrite <- !int_number_of. now rewrite H. Qed.

(** C3, as amended: two videos whose names have different leading-number
    keys get different frame directories and different PDF paths, and two
    videos with the same key share both. *)
Theorem distinct_keys_disjoint_outputs (a b : string) :
  (extract_number a <> extract_number b ->
   img_dir_of a <> img_dir_of b /\ pdf_path_of a <> pdf_path_of b) /\
  (extract_number a = extract_number b ->
   img_dir_of a = img_dir_of b /\ pdf_path_of a = pdf_path_of b).
Proof.
  split.
  - intros Hk. unfold img_dir_of, pdf_path_of, join. split; intros H.
    + apply app_inj_tail in H as [_ H]. apply Hk, number_of_inj, H.
    + apply app_inj_tail in H as [_ H]. apply append_cancel_r in H.
      apply Hk, number_of_inj, H.
  - intros Hk. unfold img_dir_of, pdf_path_of, number_of.
    rewrite Hk. split; reflexivity.
Qed.

Lemma distinct_keys_disjoint_outputs_witness :
  (img_dir_of "001 a.mp4" <> img_dir_of "002 b.mp4" /\
   pdf_path_of "001 a.mp4" <> pdf_path_of "002 b.mp4") /\
  (img_dir_of "7 a.mp4" = img_dir_of "٧ b.mkv" /\
   pdf_path_of "7 a.mp4" = pdf_path_of "٧ b.mkv").
Proof.
  split.
  - apply (distinct_keys_disjoint_outputs "001 a.mp4" "002 b.mp4").
    vm_compute. discriminate.
  - apply (distinct_keys_disjoint_outputs "7 a.mp4" "٧ b.mkv").
    reflexivity.
Defined.

(** C3 as stated fails: distinct videos without a leading number, or with
    the same number written differently, share both names. *)
Lemma distinct_videos_same_outputs :
  "intro.mp4" <> "outro.mp4" /\
  img_dir_of "intro.mp4" = img_dir_of "outro.mp4" /\
  pdf_path_of "intro.mp4" = pdf_path_of "outro.mp4" /\
  "1 a.mp4" <> "01 b.mkv" /\
  img_dir_of "1 a.mp4" = img_dir_of "01 b.mkv" /\
  pdf_path_of "1 a.mp4" = pdf_path_of "01 b.mkv".
Proof. repeat split; discriminate. Qed.

(** ** The file system *)

Lemma path_eqb_eq (p q : path) : Fs.path_eqb p q = true <-> p = q.
Proof.
  revert q; induction p as [|a p IH]; intros [|b q]; simpl;
    try (split; [discriminate | discriminate]); try tauto.
  rewrite andb_true_iff, String.eqb_eq, IH.
  split; [intros [-> ->]; reflexivity | intros H; inversion H; auto].
Qed.

Lemma path_eqb_refl (p : path) : Fs.path_eqb p p = true.
Proof. now apply path_eqb_eq. Qed.

Lemma assoc_app (p : path) (l l' : FS) :
  Fs.assoc p (l ++ l') =
  match Fs.assoc p l with
  | Some n => Some n
  | None => Fs.assoc p l'
  end.
Proof.
  induction l as [|[q n] l IH]; simpl; [reflexivity|].
  destruct (Fs.path_eqb p q); auto.
Qed.

Lemma lookup_app_new (p : path) (n : node) (l : FS) :
  Fs.lookup l p = None -> Fs.lookup (l ++ [(p, n)]) p = Some n.
Proof.
  destruct p as [|a p]; simpl; [discriminate|].
  intros H. rewrite assoc_app, H. simpl.
  now rewrite String.eqb_refl, path_eqb_refl.
Qed.

Lemma os_mkdir_is_dir (p : path) (l l1 : FS) :
  Fs.os_mkdir p l = Ok l1 -> Fs.is_dir l1 p = true.
Proof.
  unfold Fs.os_mkdir, Fs.is_dir.
  destruct (Fs.lookup l p) eqn:E; [discriminate|].
  destruct (Fs.lookup l (Path.parent p)) as [[|c]|]; try discriminate.
  intros H; inversion H; subst.
  now rewrite lookup_app_new.
Qed.

Lemma mkdir_flat_is_dir (exist_ok : bool) (p : path) (l l1 : FS) :
  Fs.mkdir_flat exist_ok p l = Ok l1 -> Fs.is_dir l1 p = true.
Proof.
  unfold Fs.mkdir_flat.
  destruct (Fs.os_mkdir p l) as [l'|e] eqn:E.
  - intros H; inversion H; subst. eapply os_mkdir_is_dir, E.
  - destruct e; try discriminate;
      destruct exist_ok; simpl; try discriminate;
      destruct (Fs.is_dir l p) eqn:D; try discriminate;
      intros H; inversion H; subst; exact D.
Qed.

(** After [mkdir(parents=True, exist_ok=True)] returns, the directory is
    there. *)
Lemma mkdir_is_dir (exist_ok : bool) (p : path) (l l1 : FS) :
  Fs.mkdir true exist_ok p l = Ok l1 -> Fs.is_dir l1 p = true.
Proof.
  unfold Fs.mkdir. rewrite <- (rev_involutive p) at 2.
  generalize (rev p) as rp; intros rp H.
  destruct rp as [|a rp]; simpl in H.
  - inversion H; reflexivity.
  - destruct (Fs.os_mkdir (rev rp ++ [a]) l) as [l'|e] eqn:E.
    + inversion H; subst. eapply os_mkdir_is_dir, E.
    + destruct e;
        try (destruct exist_ok; simpl in H; try discriminate;
             destruct (Fs.is_dir l (rev rp ++ [a])) eqn:D; try discriminate;
             inversion H; subst; exact D).
      destruct (Fs.mkdir_parents true rp l); [|discriminate].
      eapply mkdir_flat_is_dir, H.
Qed.

(** [mkdir(exist_ok=True)] leaves an existing directory as it is. *)
Lemma mkdir_existing (parents : bool) (p : path) (l : FS) :
  Fs.is_dir l p = true -> Fs.mkdir parents true p l = Ok l.
Proof.
  intros D.
  assert (E : Fs.os_mkdir p l = Raise (FileExistsError p)).
  { unfold Fs.os_mkdir. unfold Fs.is_dir in D.
    destruct (Fs.lookup l p); [reflexivity | discriminate]. }
  unfold Fs.mkdir. destruct parents.
  - destruct (rev p) as [|a rp] eqn:R.
    + apply (f_equal (@rev string)) in R. rewrite rev_involutive in R. subst p.
      reflexivity.
    + cbn [Fs.mkdir_parents]. rewrite <- R, rev_involutive, E, D. reflexivity.
  - unfold Fs.mkdir_flat. rewrite E, D. reflexivity.
Qed.

(** *** Making a directory with its parents *)

Lemma lookup_app (p : path) (l l' : FS) :
  Fs.lookup (l ++ l') p =
  match Fs.lookup l p with
  | Some n => Some n
  | None => Fs.lookup l' p
  end.
Proof. destruct p as [|a p]; [reflexivity | apply assoc_app]. Qed.

Lemma is_dir_app (p : path) (l l' : FS) :
  Fs.is_dir l p = true -> Fs.is_dir (l ++ l') p = true.
Proof.
  unfold Fs.is_dir. rewrite lookup_app.
  destruct (Fs.lookup l p) as [[|c]|]; auto; discriminate.
Qed.

Lemma assoc_in (p : path) (n : node) (l : FS) :
  Fs.assoc p l = Some n -> In (p, n) l.
Proof.
  induction l as [|[q m] l IH]; simpl; [discriminate|].
  destruct (Fs.path_eqb p q) eqn:E.
  - apply path_eqb_eq in E. intros H; inversion H; subst. now left.
  - intros H. right. apply IH, H.
Qed.

Lemma lookup_new_dirs (p : path) (n : node) (news : list path) :
  Fs.lookup (map (fun q => (q, Dir)) news) p = Some n ->
  n = Dir /\ (p = [] \/ In p news).
Proof.
  destruct p as [|a p]; cbn [Fs.lookup].
  - intros H; inversion H. split; [reflexivity | now left].
  - intros H. apply assoc_in, in_map_iff in H as (q & E & Hin).
    inversion E; subst. split; [reflexivity | now right].
Qed.

(** A prefix of [s ++ [a]] is the whole of it or a prefix of [s]. *)
Lemma prefix_snoc (q r s : list string) (a : string) :
  s ++ [a] = q ++ r -> q = s ++ [a] \/ exists r', s = q ++ r'.
Proof.
  destruct r as [|x r] using rev_ind.
  - rewrite app_nil_r. intros ->. now left.
  - rewrite app_assoc. intros H. apply app_inj_tail in H as [-> _].
    right. now exists r.
Qed.

(** Where every entry has its parent, the ancestors of a directory are
    directories. *)
Lemma parents_present_prefix (l : FS) (q r : path) :
  parents_present l -> Fs.is_dir l (q ++ r) = true -> Fs.is_dir l q = true.
Proof.
  intros Hwf. induction r as [|x r IH] using rev_ind.
  - now rewrite app_nil_r.
  - intros H. apply IH.
    assert (Hne : q ++ r ++ [x] <> []).
    { intros E. apply app_eq_nil in E as [_ E].
      apply app_eq_nil in E as [_ E]. discriminate. }
    unfold Fs.is_dir in H.
    destruct (Fs.lookup l (q ++ r ++ [x])) as [[|c]|] eqn:E; try discriminate.
    pose proof (Hwf _ _ Hne E) as P.
    unfold Path.parent in P. now rewrite app_assoc, removelast_last in P.
Qed.

Lemma parents_present_check (l : FS) :
  forallb (fun e => Fs.is_dir l (Path.parent (fst e))) l = true ->
  parents_present l.
Proof.
  intros H p n Hne Hl. rewrite forallb_forall in H.
  destruct p as [|a p]; [contradiction|].
  apply assoc_in in Hl. apply (H _ Hl).
Qed.

(** [mkdir(parents=True, exist_ok=True)] succeeds unless the path or one
    of its ancestors is a regular file.  It appends directories only, each
    of them the path or an ancestor of it, and afterwards the path is a
    directory; where every entry had its parent, all its ancestors are. *)
Lemma mkdir_parents_makes (rp : list string) (l : FS) :
  (forall q r c, rev rp = q ++ r -> Fs.lookup l q <> Some (File c)) ->
  exists news,
    Fs.mkdir_parents true rp l = Ok (l ++ map (fun q => (q, Dir)) news) /\
    Forall (fun q => exists r, rev rp = q ++ r) news /\
    Fs.is_dir (l ++ map (fun q => (q, Dir)) news) (rev rp) = true /\
    (parents_present l ->
     forall q r, rev rp = q ++ r ->
                 Fs.is_dir (l ++ map (fun q => (q, Dir)) news) q = true).
Proof.
  induction rp as [|a rp IH]; intros Hnf.
  - exists []. cbn [map rev]. rewrite app_nil_r. repeat split.
    + constructor.
    + intros _ q r E. symmetry in E. apply app_eq_nil in E as [-> _]. reflexivity.
  - cbn [rev] in *. set (p := rev rp ++ [a]) in *.
    cbn [Fs.mkdir_parents rev]. fold p. unfold Fs.os_mkdir at 1.
    destruct (Fs.lookup l p) as [[|c]|] eqn:E.
    + (* the directory is there *)
      assert (D : Fs.is_dir l p = true) by (unfold Fs.is_dir; now rewrite E).
      rewrite D. exists []. cbn [map andb]. rewrite app_nil_r.
      repeat split; [constructor | exact D |].
      intros Hwf q r Hq. apply (parents_present_prefix l q r Hwf).
      now rewrite <- Hq.
    + exfalso. apply (Hnf p [] c); [now rewrite app_nil_r | exact E].
    + unfold Path.parent, p. rewrite removelast_last. fold p.
      destruct (Fs.lookup l (rev rp)) as [[|c]|] eqn:EP.
      * (* only the last component is missing *)
        exists [p]. cbn [map]. split; [reflexivity|].
        assert (D : Fs.is_dir (l ++ [(p, Dir)]) p = true).
        { unfold Fs.is_dir. now rewrite lookup_app_new. }
        split; [|split; [exact D|]].
        { constructor; [|constructor]. exists []. now rewrite app_nil_r. }
        intros Hwf q r Hq. destruct (prefix_snoc _ _ _ _ Hq) as [->|[r' Hr]].
        { exact D. }
        apply is_dir_app, (parents_present_prefix l q r' Hwf).
        rewrite <- Hr. unfold Fs.is_dir. now rewrite EP.
      * exfalso. apply (Hnf (rev rp) [a] c); [reflexivity | exact EP].
      * (* the parent is missing too *)
        destruct IH as (news & Hrun & Hall & Hdir & Hpre).
        { intros q r c Hq. apply (Hnf q (r ++ [a]) c).
          unfold p. now rewrite Hq, app_assoc. }
        rewrite Hrun. set (l1 := l ++ map (fun q => (q, Dir)) news) in *.
        assert (Hall' : Forall (fun q => exists r, p = q ++ r) news).
        { eapply Forall_impl; [|exact Hall]. intros q [r Hr].
          exists (r ++ [a]). unfold p. now rewrite Hr, app_assoc. }
        unfold Fs.mkdir_flat, Fs.os_mkdir.
        destruct (Fs.lookup l1 p) as [n|] eqn:E1.
        { (* made on the way: cannot happen, and is harmless *)
          assert (D : Fs.is_dir l1 p = true).
          { unfold Fs.is_dir. rewrite E1. unfold l1 in E1.
            rewrite lookup_app, E in E1.
            apply lookup_new_dirs in E1 as [-> _]. reflexivity. }
          rewrite D. cbn [andb]. exists news. fold l1.
          repeat split; [exact Hall' | exact D |].
          intros Hwf q r Hq. destruct (prefix_snoc _ _ _ _ Hq) as [->|[r' Hr]].
          - exact D.
          - apply (Hpre Hwf q r' Hr). }
        unfold Path.parent, p. rewrite removelast_last. fold p.
        unfold Fs.is_dir in Hdir.
        destruct (Fs.lookup l1 (rev rp)) as [[|c]|]; try discriminate.
        exists (news ++ [p]). rewrite map_app, app_assoc. cbn [map]. fold l1.
        assert (D : Fs.is_dir (l1 ++ [(p, Dir)]) p = true).
        { unfold Fs.is_dir. now rewrite lookup_app_new. }
        split; [reflexivity|]. split; [|split; [exact D|]].
        { apply Forall_app. split; [exact Hall'|].
          constructor; [|constructor]. exists []. now rewrite app_nil_r. }
        intros Hwf q r Hq. destruct (prefix_snoc _ _ _ _ Hq) as [->|[r' Hr]].
        { exact D. }
        apply is_dir_app, (Hpre Hwf q r' Hr).
Qed.

Lemma glob_nonempty_is_dir (l : FS) (dir : path) (pat : string) :
  nonempty (Fs.glob l dir pat) = true -> Fs.is_dir l dir = true.
Proof.
  unfold Fs.glob. destruct (Fs.is_dir l dir); [reflexivity | discriminate].
Qed.

(** ** Frame extraction *)

Section ExtractFrames.

Variable ffmpeg : list string -> FS -> FS.
Variables video_path output_subfolder : path.

Let exist_msg := Print ["Frames already exist for:"; Path.name video_path].
Let start_msg := Print ["Extracting frames for:"; Path.name video_path].
Let done_msg := Print ["Frame extraction complete for:"; Path.name video_path].
Let cmd := ffmpeg_cmd video_path output_subfolder.

(** The whole of [extract_frames], by the outcome of its [mkdir]. *)
Lemma extract_frames_cases (w : World) :
  extract_frames ffmpeg video_path output_subfolder w =
  match Fs.mkdir true true output_subfolder (fs w) with
  | Raise e => (Raise e, w)
  | Ok l1 =>
      if nonempty (Fs.glob l1 output_subfolder "frame_*.jpg") then
        (Ok true, add_event exist_msg (set_fs l1 w))
      else if ffmpeg_installed w then
        (Ok true,
         add_event done_msg
           (add_event (Run cmd) (set_fs (ffmpeg cmd l1) (add_event start_msg (set_fs l1 w)))))
      else
        (Raise (FileNotFoundError ["ffmpeg"]), add_event start_msg (set_fs l1 w))
  end.
Proof.
  cbv [extract_frames bind fs_op glob get_fs ret safe_print emit subprocess_run].
  destruct (Fs.mkdir true true output_subfolder (fs w)) as [l1|e]; [|reflexivity].
  cbn [fs set_fs].
  destruct (nonempty (Fs.glob l1 output_subfolder "frame_*.jpg")); [reflexivity|].
  cbn [ffmpeg_installed add_event set_fs fs].
  destruct (ffmpeg_installed w); reflexivity.
Qed.

Lemma set_fs_same (w : World) : set_fs (fs w) w = w.
Proof. destruct w; reflexivity. Qed.

(** With frames in place the call only prints. *)
Lemma extract_frames_skip (w : World) :
  nonempty (Fs.glob (fs w) output_subfolder "frame_*.jpg") = true ->
  extract_frames ffmpeg video_path output_subfolder w = (Ok true, add_event exist_msg w).
Proof.
  intros H. rewrite extract_frames_cases.
  rewrite (mkdir_existing true _ _ (glob_nonempty_is_dir _ _ _ H)).
  rewrite H, set_fs_same. reflexivity.
Qed.

Lemma runs_app (t t' : list event) : runs (t ++ t') = (runs t + runs t')%nat.
Proof.
  induction t as [|e t IH]; simpl; [reflexivity|].
  destruct e; simpl; rewrite IH; reflexivity.
Qed.

(** One call runs the tool at most once. *)
Lemma extract_frames_runs (w : World) :
  (runs (trace (snd (extract_frames ffmpeg video_path output_subfolder w)))
   <= runs (trace w) + 1)%nat.
Proof.
  rewrite extract_frames_cases.
  destruct (Fs.mkdir true true output_subfolder (fs w)) as [l1|e]; simpl; [|lia].
  destruct (nonempty _); simpl.
  - rewrite runs_app; simpl; lia.
  - destruct (ffmpeg_installed w); simpl; rewrite !runs_app; simpl; lia.
Qed.

End ExtractFrames.

(** C6, as amended: with frame files already in the directory,
    [extract_frames] returns success, leaves the file system as it is and
    does not run the external tool; so when the first of two calls leaves
    a frame file behind, the second call is such a no-op and the tool has
    been run at most once. *)
Theorem extract_frames_idempotent
    (ffmpeg : list string -> FS -> FS) (video_path output_subfolder : path)
    (w : World) :
  (nonempty (Fs.glob (fs w) output_subfolder "frame_*.jpg") = true ->
   extract_frames ffmpeg video_path output_subfolder w =
   (Ok true,
    add_event (Print ["Frames already exist for:"; Path.name video_path]) w)) /\
  (forall r1 w1,
     extract_frames ffmpeg video_path output_subfolder w = (r1, w1) ->
     nonempty (Fs.glob (fs w1) output_subfolder "frame_*.jpg") = true ->
     exists w2,
       extract_frames ffmpeg video_path output_subfolder w1 = (Ok true, w2) /\
       fs w2 = fs w1 /\
       runs (trace w2) = runs (trace w1) /\
       (runs (trace w2) <= runs (trace w) + 1)%nat).
Proof.
  split.
  - apply extract_frames_skip.
  - intros r1 w1 H1 Hframes.
    eexists. split; [apply extract_frames_skip, Hframes|].
    pose proof (extract_frames_runs ffmpeg video_path output_subfolder w) as Hr.
    rewrite H1 in Hr. simpl in Hr.
    cbn [fs trace add_event]. rewrite runs_app. simpl.
    repeat split; lia.
Qed.

Lemma extract_frames_idempotent_witness :
  exists w1 w2,
    extract_frames tool_two_frames video_001 ["pdf"; "001"] (world_of one_video)
    = (Ok true, w1) /\
    extract_frames tool_two_frames video_001 ["pdf"; "001"] w1 = (Ok true, w2) /\
    fs w2 = fs w1 /\ runs (trace w2) = 1%nat.
Proof.
  destruct (extract_frames_idempotent tool_two_frames video_001 ["pdf"; "001"]
              (world_of one_video)) as [_ H].
  destruct (extract_frames tool_two_frames video_001 ["pdf"; "001"]
              (world_of one_video)) as [r1 w1] eqn:E.
  vm_compute in E. inversion E; subst r1 w1; clear E.
  destruct (H _ _ eq_refl) as (w2 & H2 & Hfs & Hruns & _); [reflexivity|].
  eexists _, w2. split; [reflexivity|]. split; [exact H2|]. split; [exact Hfs|].
  rewrite Hruns. reflexivity.
Defined.

(** C6 as stated fails: when the tool leaves no frame behind, the second
    call runs it again. *)
Lemma extract_frames_twice_runs_tool_twice :
  let w1 := snd (extract_frames tool_no_frames video_001 ["pdf"; "001"]
                   (world_of one_video)) in
  let w2 := snd (extract_frames tool_no_frames video_001 ["pdf"; "001"] w1) in
  runs (trace w1) = 1%nat /\ runs (trace w2) = 2%nat.
Proof. split; reflexivity. Qed.

(** C10: [extract_frames] makes the directory first, with its parents.
    Unless the directory or one of its ancestors is a regular file,
    [mkdir] returns: it keeps every entry, adds nothing but directories
    that are the target or an ancestor of it, and (every entry having had
    its parent) leaves the target and all its ancestors in place.  If
    [mkdir] raises, nothing else happens; otherwise the directory is
    there when the check for frames is made, on the file system [mkdir]
    returned.  A call that skips extraction leaves the directory in
    place, and a directory that was already there, empty or not, is
    accepted as it is. *)
Theorem extract_frames_makes_directory_first
    (ffmpeg : list string -> FS -> FS) (video_path output_subfolder : path)
    (w : World) :
  (forall e,
     Fs.mkdir true true output_subfolder (fs w) = Raise e ->
     extract_frames ffmpeg video_path output_subfolder w = (Raise e, w)) /\
  (forall l1,
     Fs.mkdir true true output_subfolder (fs w) = Ok l1 ->
     Fs.is_dir l1 output_subfolder = true /\
     extract_frames ffmpeg video_path output_subfolder w =
     (if nonempty (Fs.glob l1 output_subfolder "frame_*.jpg") then
        (Ok true,
         add_event (Print ["Frames already exist for:"; Path.name video_path])
           (set_fs l1 w))
      else if ffmpeg_installed w then
        (Ok true,
         add_event (Print ["Frame extraction complete for:"; Path.name video_path])
           (add_event (Run (ffmpeg_cmd video_path output_subfolder))
              (set_fs (ffmpeg (ffmpeg_cmd video_path output_subfolder) l1)
                 (add_event (Print ["Extracting frames for:"; Path.name video_path])
                    (set_fs l1 w)))))
      else
        (Raise (FileNotFoundError ["ffmpeg"]),
         add_event (Print ["Extracting frames for:"; Path.name video_path])
           (set_fs l1 w)))) /\
  (nonempty (Fs.glob (fs w) output_subfolder "frame_*.jpg") = true ->
   Fs.is_dir (fs (snd (extract_frames ffmpeg video_path output_subfolder w)))
     output_subfolder = true) /\
  (Fs.is_dir (fs w) output_subfolder = true ->
   Fs.mkdir true true output_subfolder (fs w) = Ok (fs w) /\
   (ffmpeg_installed w = true ->
    fst (extract_frames ffmpeg video_path output_subfolder w) = Ok true)) /\
  ((forall q r c, output_subfolder = q ++ r -> Fs.lookup (fs w) q <> Some (File c)) ->
   exists l1,
     Fs.mkdir true true output_subfolder (fs w) = Ok l1 /\
     Fs.is_dir l1 output_subfolder = true /\
     (forall p n, Fs.lookup (fs w) p = Some n -> Fs.lookup l1 p = Some n) /\
     (forall p n,
        Fs.lookup l1 p = Some n ->
        Fs.lookup (fs w) p = Some n \/
        (n = Dir /\ exists r, output_subfolder = p ++ r)) /\
     (parents_present (fs w) ->
      forall q r, output_subfolder = q ++ r -> Fs.is_dir l1 q = true)).
Proof.
  split; [|split; [|split; [|split]]].
  - intros e H. rewrite extract_frames_cases, H. reflexivity.
  - intros l1 H. split.
    + eapply mkdir_is_dir; eassumption.
    + rewrite extract_frames_cases, H. reflexivity.
  - intros H. rewrite (extract_frames_skip _ _ _ _ H). cbn [snd fs add_event].
    eapply glob_nonempty_is_dir, H.
  - intros H. split.
    + apply mkdir_existing, H.
    + intros Htool.
      rewrite extract_frames_cases, (mkdir_existing true _ _ H), Htool.
      destruct (nonempty _); reflexivity.
  - intros Hnf. unfold Fs.mkdir.
    destruct (mkdir_parents_makes (rev output_subfolder) (fs w))
      as (news & Hrun & Hall & Hdir & Hpre).
    { rewrite rev_involutive. exact Hnf. }
    rewrite rev_involutive in Hall, Hdir, Hpre.
    eexists. split; [exact Hrun|]. split; [exact Hdir|].
    split; [|split; [|exact Hpre]].
    + intros p n H. now rewrite lookup_app, H.
    + intros p n H. rewrite lookup_app in H.
      destruct (Fs.lookup (fs w) p) as [m|]; [now left|]. right.
      apply lookup_new_dirs in H as [-> [->|Hin]]; (split; [reflexivity|]).
      * now exists output_subfolder.
      * rewrite Forall_forall in Hall. apply Hall, Hin.
Qed.

Lemma extract_frames_makes_directory_first_witness :
  Fs.is_dir (fs (world_of one_video)) ["pdf"; "001"] = false /\
  Fs.is_dir
    (fs (snd (extract_frames tool_no_frames video_001 ["pdf"; "001"]
                (world_of one_video)))) ["pdf"; "001"] = true /\
  Fs.mkdir true true ["pdf"] (fs (world_of one_video)) = Ok (fs (world_of one_video)) /\
  fst (extract_frames tool_no_frames video_001 ["pdf"] (world_of one_video)) = Ok true /\
  Fs.exists_ no_videos ["pdf"] = false /\
  exists l1,
    Fs.mkdir true true ["pdf"; "001"] no_videos = Ok l1 /\
    Fs.is_dir l1 ["pdf"] = true /\
    Fs.is_dir l1 ["pdf"; "001"] = true /\
    Fs.lookup l1 ["video"; "notes.txt"] = Some (File Raw).
Proof.
  destruct (extract_frames_makes_directory_first tool_no_frames video_001
              ["pdf"; "001"] (world_of one_video)) as (_ & H2 & _ & _ & _).
  destruct (extract_frames_makes_directory_first tool_no_frames video_001
              ["pdf"] (world_of one_video)) as (_ & _ & _ & H4 & _).
  destruct (extract_frames_makes_directory_first tool_no_frames video_001
              ["pdf"; "001"] (world_of no_videos)) as (_ & _ & _ & _ & H5).
  split; [reflexivity|].
  split; [|split; [|split; [|split; [reflexivity|]]]].
  - destruct (H2 _ eq_refl) as [_ E]. rewrite E. reflexivity.
  - destruct H4 as [Hm _]; [reflexivity | exact Hm].
  - destruct H4 as [_ Hr]; [reflexivity | apply Hr; reflexivity].
  - destruct H5 as (l1 & Hrun & Hdir & Hkeep & _ & Hpre).
    { intros q r c E.
      destruct q as [|x [|y [|z q]]]; cbn [app] in E; inversion E; subst;
        discriminate. }
    exists l1. split; [exact Hrun|]. split; [|split; [exact Hdir|]].
    + apply (Hpre (parents_present_check no_videos eq_refl) ["pdf"] ["001"]).
      reflexivity.
    + apply Hkeep. reflexivity.
Defined.

(** ** Page assembly *)

Lemma saves_app (t t' : list event) : saves (t ++ t') = (saves t + saves t')%nat.
Proof.
  induction t as [|e t IH]; simpl; [reflexivity|].
  destruct e; simpl; rewrite IH; reflexivity.
Qed.

Lemma assemblies_app (t t' : list event) :
  assemblies (t ++ t') = (assemblies t + assemblies t')%nat.
Proof. unfold assemblies. now rewrite filter_app, length_app. Qed.

(** Opening and closing images touches neither the disk nor the trace. *)
Lemma Image_open_disk (p : path) (w : World) :
  fs (snd (Image_open p w)) = fs w /\ trace (snd (Image_open p w)) = trace w.
Proof.
  unfold Image_open.
  destruct (Fs.lookup (fs w) p) as [[|[px|pages|]]|]; split; reflexivity.
Qed.

Lemma map_m_open_disk (ps : list path) (w : World) :
  fs (snd (map_m Image_open ps w)) = fs w /\
  trace (snd (map_m Image_open ps w)) = trace w.
Proof.
  revert w; induction ps as [|p ps IH]; intros w; simpl; [split; reflexivity|].
  cbv [bind ret].
  destruct (Image_open_disk p w) as [Hf Ht].
  destruct (Image_open p w) as [[img|e] w1]; cbn [snd] in *; [|split; assumption].
  destruct (IH w1) as [Hf' Ht'].
  destruct (map_m Image_open ps w1) as [[imgs|e] w2]; cbn [snd] in *;
    split; congruence.
Qed.

Lemma for_each_close (imgs : list Image) (w : World) :
  fst (for_each Image_close imgs w) = Ok tt /\
  fs (snd (for_each Image_close imgs w)) = fs w /\
  trace (snd (for_each Image_close imgs w)) = trace w.
Proof.
  revert w; induction imgs as [|img imgs IH]; intros w; simpl; [repeat split|].
  cbv [bind Image_close].
  destruct (IH (set_live (remove_first (img_src img) (live w)) w)) as (H1 & H2 & H3).
  repeat split; assumption.
Qed.

Lemma write_file_exists (p : path) (c : content) (l l' : FS) :
  Fs.write_file p c l = Ok l' -> Fs.exists_ l' p = true.
Proof.
  unfold Fs.write_file, Fs.exists_.
  destruct p as [|a p]; [reflexivity|].
  intros H.
  assert (E : l' = Fs.set_node (a :: p) (File c) l).
  { destruct (Fs.lookup l (a :: p)) as [[|c0]|]; try discriminate;
      destruct (Fs.lookup l (Path.parent (a :: p))) as [[|c1]|];
      try discriminate; inversion H; reflexivity. }
  subst l'. clear H. cbn [Fs.lookup].
  induction l as [|[q m] l IH]; cbn [Fs.set_node Fs.assoc].
  - now rewrite path_eqb_refl.
  - destruct (Fs.path_eqb (a :: p) q) eqn:E; cbn [Fs.assoc].
    + now rewrite path_eqb_refl.
    + rewrite E. exact IH.
Qed.

Section ImagesToPdf.

Variables image_folder pdf_path : path.

(** With the PDF in place the call only prints. *)
Lemma images_to_pdf_skip (w : World) :
  Fs.exists_ (fs w) pdf_path = true ->
  images_to_pdf image_folder pdf_path w =
  (Ok true, add_event (Print ["PDF exists → skipping:"; Path.name pdf_path]) w).
Proof.
  intros H. cbv [images_to_pdf bind path_exists get_fs ret safe_print emit].
  rewrite H. reflexivity.
Qed.

Lemma images_to_pdf_empty (w : World) :
  Fs.exists_ (fs w) pdf_path = false ->
  Fs.glob (fs w) image_folder "*.jpg" = [] ->
  images_to_pdf image_folder pdf_path w =
  (Ok false, add_event (Print ["NO frames found for:"; Path.str image_folder]) w).
Proof.
  intros H G. cbv [images_to_pdf bind path_exists get_fs ret safe_print emit glob].
  rewrite H, G. reflexivity.
Qed.

(** One call assembles at most one PDF, and when it does the PDF is on
    disk afterwards. *)
Lemma images_to_pdf_saves (w : World) :
  let w1 := snd (images_to_pdf image_folder pdf_path w) in
  saves (trace w1) = saves (trace w) \/
  (saves (trace w1) = (saves (trace w) + 1)%nat /\
   Fs.exists_ (fs w1) pdf_path = true).
Proof.
  cbv zeta.
  destruct (Fs.exists_ (fs w) pdf_path) eqn:Hex.
  { rewrite images_to_pdf_skip by assumption. left.
    cbn [snd trace add_event]. rewrite saves_app. simpl. lia. }
  cbv [images_to_pdf bind path_exists get_fs ret safe_print emit glob].
  rewrite Hex.
  destruct (Py.sorted_by Fs.path_leb (Fs.glob (fs w) image_folder "*.jpg"))
    as [|p0 rest].
  { left. cbn [snd trace add_event]. rewrite saves_app. simpl. lia. }
  set (w0 := add_event (Print ["Creating PDF:"; Path.name pdf_path]) w).
  assert (T0 : saves (trace w0) = saves (trace w)).
  { unfold w0. cbn [trace add_event]. rewrite saves_app. simpl. lia. }
  destruct (Image_open_disk p0 w0) as [Hf1 Ht1].
  destruct (Image_open p0 w0) as [[first|e] w1]; cbn [snd] in *;
    [|left; congruence].
  destruct (map_m_open_disk rest w1) as [Hf2 Ht2].
  destruct (map_m Image_open rest w1) as [[others|e] w2]; cbn [snd] in *;
    [|left; congruence].
  cbv [Image_save bind fs_op emit].
  destruct (Fs.write_file pdf_path
              (Pdf (img_picture first :: map img_picture others)) (fs w2))
    as [l'|e] eqn:Hw; cbn [snd]; [|left; congruence].
  right.
  cbv [Image_close]. fold Image_close.
  set (w3 := set_live _ _).
  destruct (for_each_close others w3) as (Hr & Hf3 & Ht3).
  destruct (for_each Image_close others w3) as [r4 w4]; cbn [fst snd] in *.
  subst r4. cbn [snd fs trace add_event].
  rewrite Hf3, Ht3. unfold w3. cbn [fs trace set_live add_event set_fs].
  rewrite !saves_app, Ht2, Ht1, T0. simpl. split; [lia|].
  eapply write_file_exists, Hw.
Qed.

(** One call starts at most one assembly. *)
Lemma images_to_pdf_assemblies (w : World) :
  (assemblies (trace (snd (images_to_pdf image_folder pdf_path w)))
   <= assemblies (trace w) + 1)%nat.
Proof.
  destruct (Fs.exists_ (fs w) pdf_path) eqn:Hex.
  { rewrite images_to_pdf_skip by assumption.
    cbn [snd trace add_event]. rewrite assemblies_app.
    change (assemblies [_]) with 0%nat. lia. }
  cbv [images_to_pdf bind path_exists get_fs ret safe_print emit glob].
  rewrite Hex.
  destruct (Py.sorted_by Fs.path_leb (Fs.glob (fs w) image_folder "*.jpg"))
    as [|p0 rest].
  { cbn [snd trace add_event]. rewrite assemblies_app.
    change (assemblies [_]) with 0%nat. lia. }
  set (w0 := add_event (Print ["Creating PDF:"; Path.name pdf_path]) w).
  assert (T0 : assemblies (trace w0) = (assemblies (trace w) + 1)%nat).
  { unfold w0. cbn [trace add_event]. rewrite assemblies_app. reflexivity. }
  destruct (Image_open_disk p0 w0) as [Hf1 Ht1].
  destruct (Image_open p0 w0) as [[first|e] w1]; cbn [snd] in *;
    [|rewrite Ht1; lia].
  destruct (map_m_open_disk rest w1) as [Hf2 Ht2].
  destruct (map_m Image_open rest w1) as [[others|e] w2]; cbn [snd] in *;
    [|rewrite Ht2, Ht1; lia].
  cbv [Image_save bind fs_op emit].
  destruct (Fs.write_file pdf_path
              (Pdf (img_picture first :: map img_picture others)) (fs w2))
    as [l'|e] eqn:Hw; cbn [snd]; [|rewrite Ht2, Ht1; lia].
  cbv [Image_close]. fold Image_close.
  set (w3 := set_live _ _).
  destruct (for_each_close others w3) as (Hr & Hf3 & Ht3).
  destruct (for_each Image_close others w3) as [r4 w4]; cbn [fst snd] in *.
  subst r4. cbn [snd fs trace add_event].
  rewrite Ht3. unfold w3. cbn [fs trace set_live add_event set_fs].
  rewrite !assemblies_app, Ht2, Ht1, T0.
  change (assemblies [SavePdf _ _]) with 0%nat.
  change (assemblies [Print ["PDF created:"; _]]) with 0%nat. lia.
Qed.

Lemma sorted_by_nil {A : Type} (le : A -> A -> bool) (l : list A) :
  Py.sorted_by le l = [] -> l = [].
Proof.
  destruct l as [|x l]; [reflexivity|]. simpl.
  destruct (Py.sorted_by le l) as [|y s]; simpl; [discriminate|].
  destruct (le x y); discriminate.
Qed.

(** What a normal return tells: [True] with the PDF on disk, or [False]
    with neither a PDF nor a frame and only the report printed. *)
Lemma images_to_pdf_returns (w : World) (b : bool) (w1 : World) :
  images_to_pdf image_folder pdf_path w = (Ok b, w1) ->
  (b = true /\ Fs.exists_ (fs w1) pdf_path = true) \/
  (b = false /\ Fs.exists_ (fs w) pdf_path = false /\
   Fs.glob (fs w) image_folder "*.jpg" = [] /\
   w1 = add_event (Print ["NO frames found for:"; Path.str image_folder]) w).
Proof.
  destruct (Fs.exists_ (fs w) pdf_path) eqn:Hex.
  { rewrite images_to_pdf_skip by assumption.
    intros H; inversion H; subst. left. split; [reflexivity | exact Hex]. }
  destruct (Fs.glob (fs w) image_folder "*.jpg") as [|f found] eqn:Hg.
  { rewrite images_to_pdf_empty by assumption.
    intros H; inversion H; subst. right. repeat split. }
  cbv [images_to_pdf bind path_exists get_fs ret safe_print emit glob].
  rewrite Hex, Hg.
  destruct (Py.sorted_by Fs.path_leb (f :: found)) as [|p0 rest] eqn:Hs.
  { apply sorted_by_nil in Hs. discriminate. }
  set (w0 := add_event (Print ["Creating PDF:"; Path.name pdf_path]) w).
  destruct (Image_open p0 w0) as [[first|e] w2]; [|discriminate].
  destruct (map_m_open_disk rest w2) as [Hf2 _].
  destruct (map_m Image_open rest w2) as [[others|e] w3]; cbn [snd] in *;
    [|discriminate].
  cbv [Image_save bind fs_op emit].
  destruct (Fs.write_file pdf_path
              (Pdf (img_picture first :: map img_picture others)) (fs w3))
    as [l'|e] eqn:Hw; [|discriminate].
  cbv [Image_close]. fold Image_close.
  set (w4 := set_live _ _).
  destruct (for_each_close others w4) as (Hr & Hf4 & _).
  destruct (for_each Image_close others w4) as [r5 w5]; cbn [fst snd] in *.
  subst r5. intros H; inversion H; subst. left. split; [reflexivity|].
  cbn [fs add_event]. rewrite Hf4. unfold w4. cbn [fs set_live add_event set_fs].
  eapply write_file_exists, Hw.
Qed.

End ImagesToPdf.

(** C7, as amended: with the target PDF already there, [images_to_pdf]
    skips the assembly and returns success with the file system and the
    open images as they were; so when the first of two calls with the
    same target returns, the second only prints and returns the same
    flag, and over both calls the assembly has been started, and a PDF
    written, at most once.  Whatever the first call does, one PDF at
    most is written over the two calls. *)
Theorem images_to_pdf_idempotent (image_folder pdf_path : path) (w : World) :
  (Fs.exists_ (fs w) pdf_path = true ->
   images_to_pdf image_folder pdf_path w =
   (Ok true, add_event (Print ["PDF exists → skipping:"; Path.name pdf_path]) w)) /\
  (saves (trace (snd (images_to_pdf image_folder pdf_path
                        (snd (images_to_pdf image_folder pdf_path w)))))
   <= saves (trace w) + 1)%nat /\
  (forall b w1,
     images_to_pdf image_folder pdf_path w = (Ok b, w1) ->
     exists w2,
       images_to_pdf image_folder pdf_path w1 = (Ok b, w2) /\
       w2 = add_event
              (Print (if b then ["PDF exists → skipping:"; Path.name pdf_path]
                      else ["NO frames found for:"; Path.str image_folder])) w1 /\
       (assemblies (trace w2) <= assemblies (trace w) + 1)%nat /\
       (saves (trace w2) <= saves (trace w) + 1)%nat).
Proof.
  split; [apply images_to_pdf_skip|]. split.
  - destruct (images_to_pdf_saves image_folder pdf_path w) as [H1|[H1 Hex]].
    + destruct (images_to_pdf_saves image_folder pdf_path
                  (snd (images_to_pdf image_folder pdf_path w))) as [H2|[H2 _]];
        cbv zeta in *; lia.
    + cbv zeta in *. rewrite (images_to_pdf_skip _ _ _ Hex).
      cbn [snd trace add_event]. rewrite saves_app. simpl. lia.
  - intros b w1 H.
    pose proof (images_to_pdf_assemblies image_folder pdf_path w) as Ha.
    assert (Hs : (saves (trace w1) <= saves (trace w) + 1)%nat).
    { destruct (images_to_pdf_saves image_folder pdf_path w) as [H1|[H1 _]];
        cbv zeta in H1; rewrite H in H1; cbn [snd] in H1; lia. }
    rewrite H in Ha. cbn [snd] in Ha.
    eexists. split; [|split; [reflexivity|]].
    + destruct (images_to_pdf_returns _ _ _ _ _ H) as [[-> Hex]|(-> & Hex & Hg & ->)].
      * apply images_to_pdf_skip, Hex.
      * apply images_to_pdf_empty; assumption.
    + cbn [trace add_event]. rewrite assemblies_app, saves_app.
      destruct b; change (assemblies [_]) with 0%nat;
        change (saves [_]) with 0%nat; lia.
Qed.

Lemma images_to_pdf_idempotent_witness :
  images_to_pdf ["pdf"; "001"] ["pdf"; "notes.pdf"] (world_of numbered_pdfs) =
  (Ok true,
   add_event (Print ["PDF exists → skipping:"; "notes.pdf"]) (world_of numbered_pdfs)) /\
  exists w1 w2,
    images_to_pdf ["pdf"; "001"] ["pdf"; "001.pdf"] (world_of with_frames)
    = (Ok true, w1) /\
    images_to_pdf ["pdf"; "001"] ["pdf"; "001.pdf"] w1 = (Ok true, w2) /\
    fs w2 = fs w1 /\ assemblies (trace w2) = 1%nat /\ saves (trace w2) = 1%nat.
Proof.
  destruct (images_to_pdf_idempotent ["pdf"; "001"] ["pdf"; "notes.pdf"]
              (world_of numbered_pdfs)) as (H1 & _ & _).
  destruct (images_to_pdf_idempotent ["pdf"; "001"] ["pdf"; "001.pdf"]
              (world_of with_frames)) as (_ & _ & H3).
  split; [apply H1; reflexivity|].
  destruct (images_to_pdf ["pdf"; "001"] ["pdf"; "001.pdf"] (world_of with_frames))
    as [r1 w1] eqn:E.
  vm_compute in E. inversion E; subst r1 w1; clear E.
  destruct (H3 _ _ eq_refl) as (w2 & H2 & Hw2 & _ & _).
  eexists _, w2. split; [reflexivity|]. split; [exact H2|].
  rewrite Hw2. repeat split.
Defined.

(** C7 as stated fails: when the first call raises, here on a second
    frame that does not decode, nothing has been written and the second
    call starts the assembly again. *)
Lemma images_to_pdf_twice_assembles_twice :
  let r1 := images_to_pdf ["pdf"; "001"] ["pdf"; "001.pdf"] (world_of with_bad_frame) in
  let r2 := images_to_pdf ["pdf"; "001"] ["pdf"; "001.pdf"] (snd r1) in
  fst r1 = Raise (UnidentifiedImageError frame_2) /\
  fst r2 = Raise (UnidentifiedImageError frame_2) /\
  assemblies (trace (snd r1)) = 1%nat /\
  assemblies (trace (snd r2)) = 2%nat /\
  live (snd r2) = [frame_1; frame_1] /\
  Fs.exists_ (fs (snd r2)) ["pdf"; "001.pdf"] = false.
Proof. repeat split. Qed.

(** C8: with no image in the frame directory and no PDF at the target,
    [images_to_pdf] reports that no frames were found, returns [False] and
    leaves the file system as it is. *)
Theorem images_to_pdf_no_frames (image_folder pdf_path : path) (w : World) :
  Fs.exists_ (fs w) pdf_path = false ->
  Fs.glob (fs w) image_folder "*.jpg" = [] ->
  images_to_pdf image_folder pdf_path w =
  (Ok false, add_event (Print ["NO frames found for:"; Path.str image_folder]) w) /\
  fs (snd (images_to_pdf image_folder pdf_path w)) = fs w /\
  saves (trace (snd (images_to_pdf image_folder pdf_path w))) = saves (trace w).
Proof.
  intros H G. rewrite (images_to_pdf_empty _ _ _ H G).
  cbn [snd fs trace add_event]. rewrite saves_app. simpl.
  repeat split. lia.
Qed.

Lemma images_to_pdf_no_frames_witness :
  images_to_pdf ["pdf"; "001"] ["pdf"; "001.pdf"] (world_of empty_frame_dir) =
  (Ok false,
   add_event (Print ["NO frames found for:"; "pdf/001"]) (world_of empty_frame_dir)) /\
  fs (snd (images_to_pdf ["pdf"; "001"] ["pdf"; "001.pdf"] (world_of empty_frame_dir)))
  = empty_frame_dir /\
  saves (trace (snd (images_to_pdf ["pdf"; "001"] ["pdf"; "001.pdf"]
                       (world_of empty_frame_dir)))) = 0%nat.
Proof.
  apply (images_to_pdf_no_frames ["pdf"; "001"] ["pdf"; "001.pdf"]
           (world_of empty_frame_dir)); reflexivity.
Defined.

(** On the normal path every opened image is closed again. *)
Example images_to_pdf_closes_on_success :
  fst (images_to_pdf ["pdf"; "001"] ["pdf"; "001.pdf"] (world_of with_frames)) = Ok true /\
  live (snd (images_to_pdf ["pdf"; "001"] ["pdf"; "001.pdf"] (world_of with_frames))) = [].
Proof. split; reflexivity. Qed.

(** C9 fails on the code: when saving raises (here the directory of the
    target is missing) both opened images are still open when the call
    ends, and when a later frame does not decode the frames opened before
    it are. *)
Theorem images_to_pdf_leaves_images_open :
  (fst (images_to_pdf ["pdf"; "001"] ["out"; "001.pdf"] (world_of with_frames))
   = Raise (FileNotFoundError ["out"; "001.pdf"]) /\
   live (snd (images_to_pdf ["pdf"; "001"] ["out"; "001.pdf"] (world_of with_frames)))
   = [frame_1; frame_2]) /\
  (fst (images_to_pdf ["pdf"; "001"] ["pdf"; "001.pdf"] (world_of with_bad_frame))
   = Raise (UnidentifiedImageError frame_2) /\
   live (snd (images_to_pdf ["pdf"; "001"] ["pdf"; "001.pdf"] (world_of with_bad_frame)))
   = [frame_1]).
Proof. repeat split. Qed.

(** ** One video *)

(** [process_video] always returns a flag: whatever its three stages
    raise is caught, printed and logged. *)
Lemma process_video_never_raises
    (ffmpeg : list string -> FS -> FS) (video_path : path) (w : World) :
  exists b w', process_video ffmpeg video_path w = (Ok b, w').
Proof.
  unfold process_video, try_except.
  match goal with
  | |- context [match ?c w with _ => _ end] => destruct (c w) as [[b|e] w']
  end.
  - eexists _, _; reflexivity.
  - eexists _, _; reflexivity.
Qed.

Example process_video_catches :
  process_video tool_two_frames video_001
    {| fs := one_video; ffmpeg_installed := false; trace := []; live := [] |}
  = (Ok false,
     {| fs := empty_frame_dir; ffmpeg_installed := false;
        trace := [Print [(nl ++ "Processing:")%string; "001 a.mp4"];
                  Print ["Extracting frames for:"; "001 a.mp4"];
                  PrintError "001 a.mp4" (FileNotFoundError ["ffmpeg"]);
                  LogError (FileNotFoundError ["ffmpeg"])];
        live := [] |}).
Proof. reflexivity. Qed.

(** C2 fails on the code: when the decoder leaves no frame,
    [images_to_pdf] reports that no frames were found and returns [False],
    no PDF is written, and [process_video] still returns [True]. *)
Theorem process_video_ignores_missing_frames :
  fst (images_to_pdf (img_dir_of "001 a.mp4") (pdf_path_of "001 a.mp4")
         (world_of empty_frame_dir)) = Ok false /\
  fst (process_video tool_no_frames video_001 (world_of one_video)) = Ok true /\
  In (Print ["NO frames found for:"; "pdf/001"])
     (trace (snd (process_video tool_no_frames video_001 (world_of one_video)))) /\
  Fs.exists_ (fs (snd (process_video tool_no_frames video_001 (world_of one_video))))
    ["pdf"; "001.pdf"] = false.
Proof.
  split; [reflexivity|]. split; [reflexivity|]. split; [|reflexivity].
  vm_compute. tauto.
Qed.

(** ** The batch driver *)

Lemma lookup_app_old (l l' : FS) (p : path) :
  Fs.exists_ l p = true -> Fs.lookup (l ++ l') p = Fs.lookup l p.
Proof.
  unfold Fs.exists_, Fs.lookup. destruct p as [|a p]; [reflexivity|].
  rewrite assoc_app. destruct (Fs.assoc (a :: p) l); [reflexivity | discriminate].
Qed.

(** Making the output directory adds no entry to the input directory. *)
Lemma glob_video_after_mkdir (l : FS) (pat : string) :
  Fs.exists_ l VIDEO_DIR = true ->
  Fs.glob l VIDEO_DIR pat = [] ->
  Fs.glob (l ++ [(OUTPUT_DIR, Dir)]) VIDEO_DIR pat = [].
Proof.
  intros Hex Hg. unfold Fs.glob in *. unfold Fs.is_dir in *.
  rewrite (lookup_app_old _ _ _ Hex).
  destruct (Fs.lookup l VIDEO_DIR) as [[|c]|]; try reflexivity.
  rewrite filter_app, map_app, Hg. reflexivity.
Qed.

(** C4, as amended: with the tool installed, the input directory present
    and no entry in it matching [*.mp4], [*.webm] or [*.mkv], [main]
    reports that no videos were found and returns; it has then made the
    output directory if that was missing and changed nothing else, and no
    tool was run.  (Where [pdf] is a regular file the [mkdir] raises.) *)
Theorem main_no_videos (ffmpeg : list string -> FS -> FS) (w : World) :
  ffmpeg_installed w = true ->
  Fs.exists_ (fs w) VIDEO_DIR = true ->
  Fs.glob (fs w) VIDEO_DIR "*.mp4" = [] ->
  Fs.glob (fs w) VIDEO_DIR "*.webm" = [] ->
  Fs.glob (fs w) VIDEO_DIR "*.mkv" = [] ->
  main ffmpeg w =
  match Fs.lookup (fs w) OUTPUT_DIR with
  | Some Dir =>
      (Ok tt, add_event (Print ["No video files found in /video/"]) w)
  | None =>
      (Ok tt,
       add_event (Print ["No video files found in /video/"])
         (set_fs (fs w ++ [(OUTPUT_DIR, Dir)]) w))
  | Some (File _) => (Raise (FileExistsError OUTPUT_DIR), w)
  end.
Proof.
  intros Htool Hex H1 H2 H3.
  cbv [main bind ffmpeg_exists path_exists get_fs ret fs_op glob].
  rewrite Htool. cbn [negb]. cbv beta.
  rewrite Hex. cbn [negb]. cbv beta.
  unfold Fs.mkdir, Fs.mkdir_flat, Fs.os_mkdir, Fs.is_dir.
  destruct (Fs.lookup (fs w) OUTPUT_DIR) as [[|c]|] eqn:Hout.
  - cbn [andb fs set_fs]. rewrite set_fs_same, H1, H2, H3. reflexivity.
  - reflexivity.
  - change (Fs.lookup (fs w) (Path.parent OUTPUT_DIR)) with (Some Dir).
    cbn [fs set_fs].
    rewrite !glob_video_after_mkdir by assumption. reflexivity.
Qed.

Lemma main_no_videos_witness :
  main tool_two_frames (world_of no_videos) =
  (Ok tt,
   add_event (Print ["No video files found in /video/"])
     (set_fs (no_videos ++ [(OUTPUT_DIR, Dir)]) (world_of no_videos))).
Proof.
  apply (main_no_videos tool_two_frames (world_of no_videos)); reflexivity.
Defined.

(** C4 as stated fails: the run that finds no video has made [pdf/]. *)
Lemma main_no_videos_creates_output_dir :
  Fs.glob no_videos VIDEO_DIR "*.mp4" = [] /\
  Fs.glob no_videos VIDEO_DIR "*.webm" = [] /\
  Fs.glob no_videos VIDEO_DIR "*.mkv" = [] /\
  Fs.exists_ no_videos OUTPUT_DIR = false /\
  fst (main tool_two_frames (world_of no_videos)) = Ok tt /\
  fs (snd (main tool_two_frames (world_of no_videos))) = no_videos ++ [(["pdf"], Dir)] /\
  fs (snd (main tool_two_frames (world_of no_videos))) <> no_videos.
Proof. repeat split. discriminate. Qed.

(** ** The merger *)

Lemma safe_print_eq (args : list string) (w : World) :
  safe_print args w = (Ok tt, add_event (Print args) w).
Proof. reflexivity. Qed.




(** C5 fails on the code: a PDF whose name lacks a leading number is to
    sort last, and it is merged before one whose leading number exceeds
    999999999. *)
Theorem merge_puts_unnumbered_pdf_first :
  Fs.glob large_number_pdfs OUTPUT_DIR "*.pdf"
  = [["pdf"; "1000000000.pdf"]; ["pdf"; "notes.pdf"]] /\
  pdf_key ["pdf"; "1000000000.pdf"] = 1000000000 /\
  pdf_key ["pdf"; "notes.pdf"] = 999999999 /\
  Py.sorted pdf_key (Fs.glob large_number_pdfs OUTPUT_DIR "*.pdf")
  = [["pdf"; "notes.pdf"]; ["pdf"; "1000000000.pdf"]] /\
  fst (merge_all_pdfs (world_of large_number_pdfs)) = Ok tt /\
  Fs.lookup (fs (snd (merge_all_pdfs (world_of large_number_pdfs)))) merged_pdf
  = Some (File (Pdf [7; 8])).
Proof. repeat split. Qed.

(** * Further properties of the script *)

(** ** The identifier of a video *)

Lemma all_digits_number_of (video_name : string) :
  all_digits (number_of video_name) = true.
Proof.
  unfold number_of, Py.zfill, Py.str.
  now rewrite all_digits_app, all_digits_zeros, all_digits_string_of_uint.
Qed.

Lemma length_zeros (k : nat) : String.length (Py.zeros k) = k.
Proof. induction k; simpl; auto. Qed.

Lemma length_number_of (video_name : string) :
  (3 <= String.length (number_of video_name))%nat.
Proof.
  unfold number_of, Py.zfill. rewrite length_append, length_zeros. lia.
Qed.

Lemma leading_decimals_all (ds : string) :
  all_digits ds = true -> Py.leading_decimals (codes ds) = codes ds.
Proof.
  intros H. pose proof (leading_decimals_codes ds [] H) as E.
  rewrite app_nil_r in E. rewrite E. cbn [Py.leading_decimals]. apply app_nil_r.
Qed.

Lemma extract_number_all_digits (ds : string) :
  all_digits ds = true -> ds <> EmptyString -> extract_number ds = Py.int ds.
Proof.
  intros Hd Hne. unfold extract_number, Py.re_match_digits, Py.int.
  rewrite decode_all_digits, leading_decimals_all by assumption.
  destruct ds; [contradiction | reflexivity].
Qed.

Lemma rfind_dot_digits (ds ext : string) (i : nat) :
  all_digits ds = true -> Path.rfind_dot ext = Some i ->
  Path.rfind_dot (ds ++ ext) = Some (String.length ds + i)%nat.
Proof.
  intros Hd He. induction ds as [|c ds IH]; simpl in *; [exact He|].
  apply andb_true_iff in Hd as [_ Hd]. now rewrite (IH Hd).
Qed.

Lemma substring_prefix (s t : string) :
  substring 0 (String.length s) (s ++ t) = s.
Proof.
  induction s as [|c s IH]; simpl.
  - destruct t; reflexivity.
  - now rewrite IH.
Qed.

Lemma stem_of_digits_pdf (ds : string) :
  all_digits ds = true -> ds <> EmptyString ->
  Path.stem_of_name (ds ++ ".pdf") = ds.
Proof.
  intros Hd Hne. unfold Path.stem_of_name.
  rewrite (rfind_dot_digits ds ".pdf" 0 Hd eq_refl), Nat.add_0_r.
  rewrite length_append. simpl String.length.
  destruct ds as [|c ds]; [contradiction|].
  replace (Nat.ltb 0 (String.length (String c ds))) with true by reflexivity.
  replace (Nat.ltb (String.length (String c ds)) (String.length (String c ds) + 4 - 1))
    with true by (symmetry; apply Nat.ltb_lt; lia).
  apply substring_prefix.
Qed.

Lemma number_of_nonempty (video_name : string) : number_of video_name <> EmptyString.
Proof.
  intros H. pose proof (length_number_of video_name) as L.
  rewrite H in L. simpl in L. lia.
Qed.

(** X1: the PDF written for a video sorts, in the merge, under the key the
    video had: the leading number of the stem of [pdf_path_of name] is
    [extract_number name]. *)
Theorem pdf_key_of_video (video_name : string) :
  pdf_key (pdf_path_of video_name) = extract_number video_name.
Proof.
  unfold pdf_key, pdf_path_of, Path.stem.
  change (Path.name (OUTPUT_DIR // (number_of video_name ++ ".pdf")%string))
    with (number_of video_name ++ ".pdf")%string.
  rewrite stem_of_digits_pdf
    by auto using all_digits_number_of, number_of_nonempty.
  rewrite extract_number_all_digits
    by auto using all_digits_number_of, number_of_nonempty.
  apply int_number_of.
Qed.

(** X2: the identifier of a video has at least three characters, all of
    them decimal digits, and reads back as the key of the video. *)
Theorem number_of_shape (video_name : string) :
  (3 <= String.length (number_of video_name))%nat /\
  all_digits (number_of video_name) = true /\
  Py.int (number_of video_name) = extract_number video_name.
Proof.
  split; [apply length_number_of|].
  split; [apply all_digits_number_of | apply int_number_of].
Qed.


(** X3: a frame directory is never the PDF of a video, and neither a frame
    directory nor the PDF of a video is the merged file. *)
Theorem derived_names_apart (a b : string) :
  img_dir_of a <> pdf_path_of b /\
  pdf_path_of a <> merged_pdf /\
  img_dir_of a <> merged_pdf.
Proof.
  unfold img_dir_of, pdf_path_of, merged_pdf, join.
  split; [|split]; intros H; apply app_inj_tail in H as [_ H].
  - pose proof (all_digits_number_of a) as Hd.
    rewrite H, all_digits_app in Hd.
    apply andb_true_iff in Hd as [_ Hd]. discriminate.
  - change "final_merged.pdf" with ("final_merged" ++ ".pdf")%string in H.
    apply append_cancel_r in H.
    pose proof (all_digits_number_of a) as Hd. rewrite H in Hd. discriminate.
  - pose proof (all_digits_number_of a) as Hd. rewrite H in Hd. discriminate.
Qed.

(** ** Early returns of the driver *)

(** X4: without ffmpeg, or without the [video] folder, [main] prints the
    one error line and returns with the file system untouched: not even
    the output directory is made. *)
Theorem main_early_return (ffmpeg : list string -> FS -> FS) (w : World) :
  (ffmpeg_installed w = false ->
   main ffmpeg w = (Ok tt, add_event (Print ["ERROR: ffmpeg not installed."]) w)) /\
  (ffmpeg_installed w = true -> Fs.exists_ (fs w) VIDEO_DIR = false ->
   main ffmpeg w = (Ok tt, add_event (Print ["ERROR: 'video' folder missing."]) w)).
Proof.
  split.
  - intros H. cbv [main bind ffmpeg_exists]. rewrite H. reflexivity.
  - intros H1 H2. cbv [main bind ffmpeg_exists path_exists get_fs ret].
    rewrite H1. cbn [negb]. cbv beta. rewrite H2. reflexivity.
Qed.

Lemma main_early_return_witness :
  main tool_two_frames
    {| fs := one_video; ffmpeg_installed := false; trace := []; live := [] |}
  = (Ok tt,
     {| fs := one_video; ffmpeg_installed := false;
        trace := [Print ["ERROR: ffmpeg not installed."]]; live := [] |}) /\
  main tool_two_frames (world_of [(["pdf"], Dir)])
  = (Ok tt,
     add_event (Print ["ERROR: 'video' folder missing."]) (world_of [(["pdf"], Dir)])).
Proof.
  split.
  - apply (main_early_return tool_two_frames
             {| fs := one_video; ffmpeg_installed := false; trace := []; live := [] |}).
    reflexivity.
  - apply (main_early_return tool_two_frames (world_of [(["pdf"], Dir)]));
      reflexivity.
Defined.

(** ** More on the merger *)

Section MergeLoop.

Let add_pdf : list N -> path -> M (list N) :=
  fun writer p =>
    safe_print ["Adding:"; Path.name p] >>
    reader <- PdfReader p ;;
    ret (writer ++ reader).

(** Reading the PDFs changes nothing on disk, whether or not one fails. *)
Lemma merge_loop_fs (pdfs : list path) (writer : list N) (w : World) :
  fs (snd (fold_m add_pdf pdfs writer w)) = fs w.
Proof.
  revert writer w; induction pdfs as [|p pdfs IH]; intros writer w;
    [reflexivity|].
  cbn [fold_m]. unfold bind at 1. unfold add_pdf at 1.
  cbv [bind safe_print emit PdfReader ret]. cbn [fs add_event].
  destruct (Fs.lookup (fs w) p) as [[|[px|pages|]]|]; try reflexivity.
  rewrite IH. reflexivity.
Qed.

(** The loop ends normally only when every PDF could be read. *)
Lemma merge_loop_ok (pdfs : list path) (writer r : list N) (w w' : World) :
  fold_m add_pdf pdfs writer w = (Ok r, w') -> Forall (readable (fs w)) pdfs.
Proof.
  revert writer w; induction pdfs as [|p pdfs IH]; intros writer w H;
    [constructor|].
  cbn [fold_m] in H. unfold bind at 1 in H. unfold add_pdf at 1 in H.
  cbv [bind safe_print emit PdfReader ret] in H. cbn [fs add_event] in H.
  destruct (Fs.lookup (fs w) p) as [[|[px|pages|]]|] eqn:E; try discriminate.
  constructor; [exists pages; exact E|].
  apply IH in H. exact H.
Qed.

Lemma merge_all_pdfs_unfold (w : World) :
  Fs.exists_ (fs w) merged_pdf = false ->
  merge_all_pdfs w =
  match fold_m add_pdf
          (Py.sorted pdf_key (Fs.glob (fs w) OUTPUT_DIR "*.pdf")) []
          (add_event (Print [(nl ++ "Merging PDFs...")%string]) w) with
  | (Ok writer, w1) =>
      match Fs.write_file merged_pdf (Pdf writer) (fs w1) with
      | Ok l =>
          (Ok tt,
           add_event (Print ["Final merged PDF created:"; Path.str merged_pdf])
             (set_fs l w1))
      | Raise e => (Raise e, w1)
      end
  | (Raise e, w1) => (Raise e, w1)
  end.
Proof.
  intros Hex.
  cbv [merge_all_pdfs bind path_exists get_fs ret glob fs_op]. fold merged_pdf.
  rewrite Hex. cbv beta iota. rewrite safe_print_eq. fold pdf_key.
  unfold add_pdf. cbv [bind ret].
  match goal with
  | |- context [fold_m ?f ?l ?a ?w0] => destruct (fold_m f l a w0) as [[writer|e] w1]
  end; [|reflexivity].
  destruct (Fs.write_file merged_pdf (Pdf writer) (fs w1)); reflexivity.
Qed.

(** Whatever happens, [merge_all_pdfs] changes at most the merged file. *)
Lemma merge_all_pdfs_returns (w w' : World) :
  merge_all_pdfs w = (Ok tt, w') -> Fs.exists_ (fs w') merged_pdf = true.
Proof.
  destruct (Fs.exists_ (fs w) merged_pdf) eqn:Hex.
  - cbv [merge_all_pdfs bind path_exists get_fs ret]. fold merged_pdf.
    rewrite Hex. intros H; inversion H; subst. exact Hex.
  - rewrite (merge_all_pdfs_unfold _ Hex).
    destruct (fold_m add_pdf _ _ _) as [[writer|e] w1]; [|discriminate].
    destruct (Fs.write_file merged_pdf (Pdf writer) (fs w1)) as [l|e] eqn:Hw;
      [|discriminate].
    intros H; inversion H; subst. cbn [fs add_event set_fs].
    eapply write_file_exists, Hw.
Qed.

Lemma merge_all_pdfs_unreadable (w : World) :
  Fs.exists_ (fs w) merged_pdf = false ->
  ~ Forall (readable (fs w))
      (Py.sorted pdf_key (Fs.glob (fs w) OUTPUT_DIR "*.pdf")) ->
  exists e w', merge_all_pdfs w = (Raise e, w') /\ fs w' = fs w.
Proof.
  intros Hex Hbad. rewrite (merge_all_pdfs_unfold _ Hex).
  pose proof (merge_loop_fs
                (Py.sorted pdf_key (Fs.glob (fs w) OUTPUT_DIR "*.pdf")) []
                (add_event (Print [(nl ++ "Merging PDFs...")%string]) w)) as Hfs.
  destruct (fold_m add_pdf _ _ _) as [[writer|e] w1] eqn:E.
  - exfalso. apply Hbad. apply merge_loop_ok in E. exact E.
  - exists e, w1. split; [reflexivity | exact Hfs].
Qed.

End MergeLoop.

(** X5: the merger is idempotent: after a call that returned, the merged
    file is there, so the next call only prints that it skips the merge. *)
Theorem merge_all_pdfs_idempotent (w w1 : World) :
  merge_all_pdfs w = (Ok tt, w1) ->
  merge_all_pdfs w1 =
  (Ok tt, add_event (Print ["Merged PDF already exists — skipping merge."]) w1).
Proof.
  intros H. apply merge_all_pdfs_returns in H.
  cbv [merge_all_pdfs bind path_exists get_fs ret]. fold merged_pdf.
  rewrite H. reflexivity.
Qed.

Lemma merge_all_pdfs_idempotent_witness :
  exists w1,
    merge_all_pdfs (world_of numbered_pdfs) = (Ok tt, w1) /\
    merge_all_pdfs w1 =
    (Ok tt, add_event (Print ["Merged PDF already exists — skipping merge."]) w1).
Proof.
  destruct (merge_all_pdfs (world_of numbered_pdfs)) as [r w1] eqn:E.
  vm_compute in E. inversion E; subst r w1; clear E.
  eexists. split; [reflexivity|].
  apply (merge_all_pdfs_idempotent (world_of numbered_pdfs)). reflexivity.
Defined.

(** X6: when one of the PDFs of the output directory cannot be read, the
    merge raises and nothing is written: no partial merged file is left. *)
Theorem merge_all_pdfs_all_or_nothing (w : World) :
  Fs.exists_ (fs w) merged_pdf = false ->
  ~ Forall (readable (fs w))
      (Py.sorted pdf_key (Fs.glob (fs w) OUTPUT_DIR "*.pdf")) ->
  exists e w',
    merge_all_pdfs w = (Raise e, w') /\
    fs w' = fs w /\ Fs.exists_ (fs w') merged_pdf = false.
Proof.
  intros Hex Hbad.
  destruct (merge_all_pdfs_unreadable w Hex Hbad) as (e & w' & Hrun & Hfs).
  exists e, w'. split; [exact Hrun|]. split; [exact Hfs|].
  rewrite Hfs. exact Hex.
Qed.

Lemma merge_all_pdfs_all_or_nothing_witness :
  exists e w',
    merge_all_pdfs (world_of broken_pdfs) = (Raise e, w') /\
    fs w' = broken_pdfs /\ Fs.exists_ (fs w') merged_pdf = false.
Proof.
  apply (merge_all_pdfs_all_or_nothing (world_of broken_pdfs)); [reflexivity|].
  intros H.
  assert (Hin : In ["pdf"; "002.pdf"]
                  (Py.sorted pdf_key (Fs.glob (fs (world_of broken_pdfs))
                                        OUTPUT_DIR "*.pdf"))).
  { vm_compute. tauto. }
  rewrite Forall_forall in H. destruct (H _ Hin) as [pages Hp]. discriminate.
Defined.

Lemma set_node_new (p : path) (n : node) (l : FS) :
  Fs.assoc p l = None -> Fs.set_node p n l = l ++ [(p, n)].
Proof.
  induction l as [|[q m] l IH]; simpl; [reflexivity|].
  destruct (Fs.path_eqb p q); [discriminate|].
  intros H. now rewrite IH.
Qed.

(** X7: with no PDF in the output directory the merge still writes the
    merged file, with no page in it. *)
Theorem merge_all_pdfs_nothing_to_merge (w : World) :
  Fs.exists_ (fs w) merged_pdf = false ->
  Fs.is_dir (fs w) OUTPUT_DIR = true ->
  Fs.glob (fs w) OUTPUT_DIR "*.pdf" = [] ->
  merge_all_pdfs w =
  (Ok tt,
   add_event (Print ["Final merged PDF created:"; Path.str merged_pdf])
     (set_fs (fs w ++ [(merged_pdf, File (Pdf []))])
        (add_event (Print [(nl ++ "Merging PDFs...")%string]) w))).
Proof.
  intros Hex Hdir Hg.
  cbv [merge_all_pdfs bind path_exists get_fs ret glob fs_op]. fold merged_pdf.
  rewrite Hex, Hg. cbn [Py.sorted Py.sorted_by fold_m]. cbv [ret].
  rewrite safe_print_eq. cbn [fs add_event].
  unfold Fs.write_file. unfold Fs.exists_ in Hex. unfold Fs.is_dir in Hdir.
  destruct (Fs.lookup (fs w) merged_pdf) eqn:El; [discriminate|].
  change (Path.parent merged_pdf) with OUTPUT_DIR.
  destruct (Fs.lookup (fs w) OUTPUT_DIR) as [[|c]|]; try discriminate.
  rewrite set_node_new by exact El. reflexivity.
Qed.

Lemma merge_all_pdfs_nothing_to_merge_witness :
  Fs.lookup (fs (snd (merge_all_pdfs (world_of one_video)))) merged_pdf
  = Some (File (Pdf [])).
Proof.
  rewrite (merge_all_pdfs_nothing_to_merge (world_of one_video));
    reflexivity.
Defined.

(** ** What a stage adds to the trace *)

Section Emits.

Variable ok : event -> bool.

Lemma emits_silent {A : Type} (c : M A) :
  (forall w, trace (snd (c w)) = trace w) -> emits ok c.
Proof.
  intros H w. exists []. rewrite H, app_nil_r. split; reflexivity.
Qed.

Lemma emits_ret {A : Type} (a : A) : emits ok (ret a).
Proof. apply emits_silent. reflexivity. Qed.

Lemma emits_emit (e : event) : ok e = true -> emits ok (emit e).
Proof.
  intros H w. exists [e]. split; [reflexivity|]. simpl. now rewrite H.
Qed.

Lemma emits_bind {A B : Type} (c : M A) (k : A -> M B) :
  emits ok c -> (forall a, emits ok (k a)) -> emits ok (bind c k).
Proof.
  intros Hc Hk w. unfold bind.
  destruct (Hc w) as (t1 & E1 & F1).
  destruct (c w) as [[a|e] w1]; cbn [snd] in *.
  - destruct (Hk a w1) as (t2 & E2 & F2).
    exists (t1 ++ t2). rewrite E2, E1, app_assoc, forallb_app, F1, F2.
    split; reflexivity.
  - exists t1. split; assumption.
Qed.

Lemma emits_try_except {A : Type} (c : M A) (h : exn -> M A) :
  emits ok c -> (forall e, emits ok (h e)) -> emits ok (try_except c h).
Proof.
  intros Hc Hh w. unfold try_except.
  destruct (Hc w) as (t1 & E1 & F1).
  destruct (c w) as [[a|e] w1]; cbn [snd] in *.
  - exists t1. split; assumption.
  - destruct (Hh e w1) as (t2 & E2 & F2).
    exists (t1 ++ t2). rewrite E2, E1, app_assoc, forallb_app, F1, F2.
    split; reflexivity.
Qed.

Lemma emits_fs_op (op : FS -> result FS) : emits ok (fs_op op).
Proof.
  apply emits_silent. intros w. unfold fs_op.
  destruct (op (fs w)); reflexivity.
Qed.

Lemma emits_for_each {A : Type} (f : A -> M unit) (l : list A) :
  (forall a, emits ok (f a)) -> emits ok (for_each f l).
Proof.
  intros Hf. induction l as [|x l IH]; simpl.
  - apply emits_ret.
  - apply emits_bind; auto.
Qed.

Lemma emits_map_m {A B : Type} (f : A -> M B) (l : list A) :
  (forall a, emits ok (f a)) -> emits ok (map_m f l).
Proof.
  intros Hf. induction l as [|x l IH]; simpl.
  - apply emits_ret.
  - apply emits_bind; [auto|]. intros y.
    apply emits_bind; [exact IH|]. intros ys. apply emits_ret.
Qed.

Lemma emits_fold_m {A B : Type} (f : B -> A -> M B) (l : list A) (b : B) :
  (forall b a, emits ok (f b a)) -> emits ok (fold_m f l b).
Proof.
  intros Hf. revert b. induction l as [|x l IH]; intros b; simpl.
  - apply emits_ret.
  - apply emits_bind; auto.
Qed.

Lemma emits_glob (dir : path) (pat : string) : emits ok (glob dir pat).
Proof. apply emits_silent. reflexivity. Qed.

Lemma emits_path_exists (p : path) : emits ok (path_exists p).
Proof. apply emits_silent. reflexivity. Qed.

Lemma emits_Image_open (p : path) : emits ok (Image_open p).
Proof. apply emits_silent. intros w. apply Image_open_disk. Qed.

Lemma emits_Image_close (img : Image) : emits ok (Image_close img).
Proof. apply emits_silent. reflexivity. Qed.

Lemma emits_PdfReader (p : path) : emits ok (PdfReader p).
Proof.
  apply emits_silent. intros w. unfold PdfReader.
  destruct (Fs.lookup (fs w) p) as [[|[px|pages|]]|]; reflexivity.
Qed.

Hypothesis ok_print : forall args, ok (Print args) = true.

Lemma emits_safe_print (args : list string) : emits ok (safe_print args).
Proof. apply emits_emit, ok_print. Qed.

Lemma emits_delete_frames (folder : path) : emits ok (delete_frames folder).
Proof.
  unfold delete_frames.
  apply emits_bind; [apply emits_glob|]. intros found.
  apply emits_bind; [apply emits_for_each; intros f; apply emits_fs_op|].
  intros _. apply emits_try_except; [apply emits_fs_op|].
  intros e. apply emits_ret.
Qed.

Hypothesis ok_save : forall p pages, ok (SavePdf p pages) = true.

Lemma emits_images_to_pdf (image_folder pdf_path : path) :
  emits ok (images_to_pdf image_folder pdf_path).
Proof.
  unfold images_to_pdf.
  apply emits_bind; [apply emits_path_exists|]. intros [|].
  { apply emits_bind; [apply emits_safe_print | intros _; apply emits_ret]. }
  apply emits_bind; [apply emits_glob|]. intros found.
  destruct (Py.sorted_by Fs.path_leb found) as [|p0 rest].
  { apply emits_bind; [apply emits_safe_print | intros _; apply emits_ret]. }
  apply emits_bind; [apply emits_safe_print | intros _].
  apply emits_bind; [apply emits_Image_open | intros first].
  apply emits_bind; [apply emits_map_m; intros p; apply emits_Image_open|].
  intros others.
  apply emits_bind.
  { unfold Image_save. apply emits_bind; [apply emits_fs_op|].
    intros _. apply emits_emit, ok_save. }
  intros _.
  apply emits_bind; [apply emits_Image_close | intros _].
  apply emits_bind; [apply emits_for_each; intros i; apply emits_Image_close|].
  intros _.
  apply emits_bind; [apply emits_safe_print | intros _; apply emits_ret].
Qed.

End Emits.

Lemma logged_app (t t' : list event) : logged (t ++ t') = (logged t + logged t')%nat.
Proof.
  induction t as [|e t IH]; simpl; [reflexivity|].
  destruct e; simpl; rewrite IH; reflexivity.
Qed.

Lemma logged_none (t : list event) :
  forallb (fun e => negb (is_error_report e)) t = true -> logged t = O.
Proof.
  induction t as [|e t IH]; simpl; [reflexivity|].
  intros H. apply andb_true_iff in H as [He Ht].
  destruct e; simpl in *; try discriminate; auto.
Qed.

Lemma runs_none (t : list event) :
  forallb (fun e => negb (is_run e)) t = true -> runs t = O.
Proof.
  induction t as [|e t IH]; simpl; [reflexivity|].
  intros H. apply andb_true_iff in H as [He Ht].
  destruct e; simpl in *; try discriminate; auto.
Qed.

Lemma emits_extract_frames
    (ok : event -> bool) (ffmpeg : list string -> FS -> FS)
    (video_path output_subfolder : path) :
  (forall args, ok (Print args) = true) ->
  (forall cmd, ok (Run cmd) = true) ->
  emits ok (extract_frames ffmpeg video_path output_subfolder).
Proof.
  intros Hp Hr w. rewrite extract_frames_cases.
  destruct (Fs.mkdir true true output_subfolder (fs w)) as [l1|e].
  - destruct (nonempty _).
    + eexists [_]. split; [reflexivity|]. simpl. now rewrite Hp.
    + destruct (ffmpeg_installed w).
      * eexists [_; _; _]. cbn [snd trace add_event set_fs].
        rewrite <- !app_assoc. split; [reflexivity|].
        simpl. now rewrite !Hp, Hr.
      * eexists [_]. split; [reflexivity|]. simpl. now rewrite Hp.
  - exists []. rewrite app_nil_r. split; reflexivity.
Qed.

Lemma bind_ok_inv {A B : Type} (c : M A) (k : A -> M B) (w w' : World) (b : B) :
  bind c k w = (Ok b, w') -> exists a w1, c w = (Ok a, w1) /\ k a w1 = (Ok b, w').
Proof.
  unfold bind. destruct (c w) as [[a|e] w1]; [|discriminate].
  intros H. exists a, w1. split; [reflexivity | exact H].
Qed.

(** ** One video, continued *)

Section ProcessVideo.

Variable ffmpeg : list string -> FS -> FS.
Variable video_path : path.

Let stages : M bool :=
  safe_print [(nl ++ "Processing:")%string; Path.name video_path] >>
  let img_dir := img_dir_of (Path.name video_path) in
  let pdf_path := pdf_path_of (Path.name video_path) in
  extract_frames ffmpeg video_path img_dir >>
  images_to_pdf img_dir pdf_path >>
  delete_frames img_dir >>
  ret true.

Lemma stages_quiet : emits (fun e => negb (is_error_report e)) stages.
Proof.
  unfold stages.
  apply emits_bind; [apply emits_safe_print; reflexivity | intros _].
  apply emits_bind; [apply emits_extract_frames; reflexivity | intros _].
  apply emits_bind; [apply emits_images_to_pdf; reflexivity | intros _].
  apply emits_bind; [apply emits_delete_frames; reflexivity | intros _].
  apply emits_ret.
Qed.

Lemma stages_return_true (w w' : World) (b : bool) :
  stages w = (Ok b, w') -> b = true.
Proof.
  unfold stages. intros H.
  apply bind_ok_inv in H as (_ & w1 & _ & H). cbv zeta in H.
  apply bind_ok_inv in H as (_ & w2 & _ & H).
  apply bind_ok_inv in H as (_ & w3 & _ & H).
  apply bind_ok_inv in H as (_ & w4 & _ & H).
  inversion H. reflexivity.
Qed.

Lemma process_video_outcome (w : World) :
  (exists w', stages w = (Ok true, w') /\ process_video ffmpeg video_path w = (Ok true, w')) \/
  (exists e w',
     stages w = (Raise e, w') /\
     process_video ffmpeg video_path w =
     (Ok false,
      add_event (LogError e) (add_event (PrintError (Path.name video_path) e) w'))).
Proof.
  unfold process_video, try_except. fold stages.
  destruct (stages w) as [[b|e] w'] eqn:E.
  - left. pose proof (stages_return_true _ _ _ E). subst b.
    exists w'. split; reflexivity.
  - right. exists e, w'. split; reflexivity.
Qed.

End ProcessVideo.

(** X8: [process_video] returns [True] without writing to the log, or
    returns [False] with the exception as the last printed line and the
    last log entry; it logs one error per failed video and none
    otherwise. *)
Theorem process_video_flag_and_log
    (ffmpeg : list string -> FS -> FS) (video_path : path) (w : World) :
  let r := fst (process_video ffmpeg video_path w) in
  let w' := snd (process_video ffmpeg video_path w) in
  (r = Ok true /\ logged (trace w') = logged (trace w)) \/
  (r = Ok false /\
   logged (trace w') = (logged (trace w) + 1)%nat /\
   exists e t,
     trace w' = t ++ [PrintError (Path.name video_path) e; LogError e]).
Proof.
  cbv zeta.
  destruct (process_video_outcome ffmpeg video_path w)
    as [(w' & Hs & Hp)|(e & w' & Hs & Hp)]; rewrite Hp; cbn [fst snd].
  - left. split; [reflexivity|].
    destruct (stages_quiet ffmpeg video_path w) as (t & Et & Ft).
    rewrite Hs in Et. cbn [snd] in Et.
    rewrite Et, logged_app, (logged_none _ Ft). lia.
  - right. split; [reflexivity|].
    destruct (stages_quiet ffmpeg video_path w) as (t & Et & Ft).
    rewrite Hs in Et. cbn [snd] in Et.
    cbn [trace add_event]. rewrite Et, <- !app_assoc. split.
    + rewrite !logged_app, (logged_none _ Ft). simpl. lia.
    + exists e, (trace w ++ t). rewrite <- app_assoc. reflexivity.
Qed.

Section ProcessVideoRuns.

Variable ffmpeg : list string -> FS -> FS.
Variable video_path : path.

Let img_dir := img_dir_of (Path.name video_path).
Let pdf_path := pdf_path_of (Path.name video_path).
Let start (w : World) : World :=
  add_event (Print [(nl ++ "Processing:")%string; Path.name video_path]) w.
Let rest : M bool :=
  images_to_pdf img_dir pdf_path >> delete_frames img_dir >> ret true.

Lemma rest_no_run : emits (fun e => negb (is_run e)) rest.
Proof.
  unfold rest.
  apply emits_bind; [apply emits_images_to_pdf; reflexivity | intros _].
  apply emits_bind; [apply emits_delete_frames; reflexivity | intros _].
  apply emits_ret.
Qed.

(** The tool runs of one [process_video] are those of its
    [extract_frames]. *)
Lemma process_video_runs_eq (w : World) :
  runs (trace (snd (process_video ffmpeg video_path w))) =
  runs (trace (snd (extract_frames ffmpeg video_path img_dir (start w)))).
Proof.
  unfold process_video, try_except.
  cbv [bind safe_print emit ret]. fold img_dir pdf_path (start w).
  destruct (extract_frames ffmpeg video_path img_dir (start w)) as [[b|e] w1];
    cbn [snd].
  - destruct (rest_no_run w1) as (t & Et & Ft). unfold rest in Et.
    cbv [bind ret] in Et.
    assert (R : forall w', trace w' = trace w1 ++ t -> runs (trace w') = runs (trace w1)).
    { intros w' E. rewrite E, runs_app, (runs_none _ Ft). lia. }
    destruct (images_to_pdf img_dir pdf_path w1) as [[b2|e2] w2]; cbn [snd] in *.
    + destruct (delete_frames img_dir w2) as [[u|e3] w3]; cbn [snd] in *;
        cbn [trace add_event]; rewrite ?runs_app, (R _ Et); simpl; lia.
    + cbn [trace add_event]. rewrite !runs_app, (R _ Et). simpl. lia.
  - cbn [trace add_event]. rewrite !runs_app. simpl. lia.
Qed.

End ProcessVideoRuns.

(** X9: one [process_video] runs the external tool at most once, and it
    does run it whenever the frame directory holds no frame, also when
    the PDF of the video is already there. *)
Theorem process_video_runs_tool
    (ffmpeg : list string -> FS -> FS) (video_path : path) (w : World) :
  (runs (trace (snd (process_video ffmpeg video_path w))) <= runs (trace w) + 1)%nat /\
  (forall l1,
     ffmpeg_installed w = true ->
     Fs.mkdir true true (img_dir_of (Path.name video_path)) (fs w) = Ok l1 ->
     nonempty (Fs.glob l1 (img_dir_of (Path.name video_path)) "frame_*.jpg") = false ->
     runs (trace (snd (process_video ffmpeg video_path w)))
     = (runs (trace w) + 1)%nat).
Proof.
  rewrite process_video_runs_eq. split.
  - etransitivity; [apply extract_frames_runs|].
    cbn [trace add_event]. rewrite runs_app. simpl. lia.
  - intros l1 Htool Hmk Hg.
    rewrite extract_frames_cases. cbn [fs add_event ffmpeg_installed].
    rewrite Hmk, Hg, Htool. cbn [snd trace add_event set_fs].
    rewrite !runs_app. simpl. lia.
Qed.

Lemma process_video_runs_tool_witness :
  let w1 := snd (process_video tool_two_frames video_001 (world_of one_video)) in
  Fs.exists_ (fs w1) (pdf_path_of "001 a.mp4") = true /\
  runs (trace w1) = 1%nat /\
  runs (trace (snd (process_video tool_two_frames video_001 w1))) = 2%nat.
Proof.
  cbv zeta.
  destruct (process_video tool_two_frames video_001 (world_of one_video))
    as [r1 w1] eqn:E.
  vm_compute in E. inversion E; subst r1 w1; clear E. cbn [snd].
  split; [reflexivity|]. split; [reflexivity|].
  match goal with
  | |- runs (trace (snd (process_video _ _ ?w))) = _ =>
      destruct (process_video_runs_tool tool_two_frames video_001 w) as [_ H]
  end.
  erewrite H; [reflexivity | reflexivity | reflexivity | reflexivity].
Defined.

(** ** The batch driver, continued *)

Lemma for_each_process_video
    (ffmpeg : list string -> FS -> FS) (videos : list path) (w : World) :
  exists wp,
    for_each (fun v => process_video ffmpeg v >> ret tt) videos w = (Ok tt, wp).
Proof.
  revert w; induction videos as [|v videos IH]; intros w; simpl.
  - exists w. reflexivity.
  - cbv [bind ret].
    destruct (process_video_never_raises ffmpeg v w) as (b & w1 & E).
    rewrite E. destruct (IH w1) as (wp & Ep).
    exists wp. cbv [bind ret] in Ep. exact Ep.
Qed.

(** X10: once videos are found, no failure of a single video stops the
    run: every video is processed, the merge is attempted, and [main]
    raises only if the merge does. *)
Theorem main_always_merges
    (ffmpeg : list string -> FS -> FS) (w : World) (l1 : FS) :
  let videos :=
    Py.sorted (fun f => extract_number (Path.name f))
      (Fs.glob l1 VIDEO_DIR "*.mp4" ++ Fs.glob l1 VIDEO_DIR "*.webm" ++
       Fs.glob l1 VIDEO_DIR "*.mkv") in
  ffmpeg_installed w = true ->
  Fs.exists_ (fs w) VIDEO_DIR = true ->
  Fs.mkdir false true OUTPUT_DIR (fs w) = Ok l1 ->
  videos <> [] ->
  exists wp,
    for_each (fun v => process_video ffmpeg v >> ret tt) videos
      (add_event
         (Print [(nl ++ "Starting multi-threaded processing..." ++ nl)%string])
         (set_fs l1 w))
    = (Ok tt, wp) /\
    main ffmpeg w =
    match merge_all_pdfs wp with
    | (Ok _, wm) => (Ok tt, add_event (Print [(nl ++ "ALL DONE.")%string]) wm)
    | (Raise e, wm) => (Raise e, wm)
    end.
Proof.
  cbv zeta. intros Htool Hex Hmk Hne.
  match goal with
  | |- exists wp, for_each ?f ?vs ?w0 = _ /\ _ =>
      destruct (for_each_process_video ffmpeg vs w0) as (wp & Ep)
  end.
  exists wp. split; [exact Ep|].
  cbv [main bind ffmpeg_exists path_exists get_fs ret fs_op glob].
  rewrite Htool. cbn [negb]. cbv beta.
  rewrite Hex. cbn [negb]. cbv beta.
  rewrite Hmk. cbn [fs set_fs].
  destruct (Py.sorted _ _) as [|v vs] eqn:Ev; [contradiction|].
  rewrite safe_print_eq.
  cbv [bind ret] in Ep. rewrite Ep.
  destruct (merge_all_pdfs wp) as [[u|e] wm]; reflexivity.
Qed.

Lemma main_always_merges_witness :
  exists wp,
    main tool_no_frames (world_of one_video) =
    match merge_all_pdfs wp with
    | (Ok _, wm) => (Ok tt, add_event (Print [(nl ++ "ALL DONE.")%string]) wm)
    | (Raise e, wm) => (Raise e, wm)
    end.
Proof.
  destruct (main_always_merges tool_no_frames (world_of one_video) one_video)
    as (wp & _ & H); try reflexivity.
  - vm_compute. discriminate.
  - exists wp. exact H.
Defined.

(** ** The order of paths *)











Section SortedBy.

Context {A : Type} (le : A -> A -> bool).



Hypothesis le_total : forall x y, le x y = false -> le y x = true.
Hypothesis le_trans : forall x y z, le x y = true -> le y z = true -> le x z = true.



End SortedBy.

(** ** Page assembly, continued *)












(** ** Cleanup *)

Lemma path_eqb_neq (p q : path) : p <> q -> Fs.path_eqb p q = false.
Proof.
  intros H. destruct (Fs.path_eqb p q) eqn:E; [|reflexivity].
  apply path_eqb_eq in E. contradiction.
Qed.

Lemma assoc_remove_other (p q : path) (l : FS) :
  q <> p -> Fs.assoc q (Fs.remove p l) = Fs.assoc q l.
Proof.
  intros Hne. unfold Fs.remove.
  induction l as [|[k n] l IH]; simpl; [reflexivity|].
  destruct (Fs.path_eqb p k) eqn:E; simpl.
  - apply path_eqb_eq in E. subst k.
    rewrite (path_eqb_neq _ _ Hne). exact IH.
  - destruct (Fs.path_eqb q k); [reflexivity | exact IH].
Qed.

Lemma lookup_remove_other (p q : path) (l : FS) :
  q <> p -> Fs.lookup (Fs.remove p l) q = Fs.lookup l q.
Proof.
  intros Hne. destruct q as [|a q]; [reflexivity|].
  apply assoc_remove_other, Hne.
Qed.

Lemma assoc_remove_same (p : path) (l : FS) : Fs.assoc p (Fs.remove p l) = None.
Proof.
  unfold Fs.remove.
  induction l as [|[k n] l IH]; simpl; [reflexivity|].
  destruct (Fs.path_eqb p k) eqn:E; simpl; [exact IH|].
  rewrite E. exact IH.
Qed.

Lemma lookup_unlink_all_other (ps : list path) (q : path) (l : FS) :
  ~ In q ps -> Fs.lookup (unlink_all ps l) q = Fs.lookup l q.
Proof.
  revert l; induction ps as [|p ps IH]; intros l Hn; [reflexivity|].
  change (unlink_all (p :: ps) l) with (unlink_all ps (Fs.remove p l)).
  rewrite IH by (intros H; apply Hn; right; exact H).
  apply lookup_remove_other. intros ->. apply Hn. left. reflexivity.
Qed.

Lemma is_file_nonroot (l : FS) (p : path) : is_file l p -> p <> [].
Proof. intros [c H] ->. discriminate. Qed.

(** Unlinking distinct files one after the other never fails. *)
Lemma unlink_loop (ps : list path) (w : World) :
  NoDup ps -> Forall (is_file (fs w)) ps ->
  for_each (fun f => fs_op (Fs.unlink f)) ps w =
  (Ok tt, set_fs (unlink_all ps (fs w)) w).
Proof.
  revert w; induction ps as [|p ps IH]; intros w Hnd Hall.
  - simpl. unfold ret. now rewrite set_fs_same.
  - inversion Hnd as [|? ? Hnp Hnd']; subst.
    inversion Hall as [|? ? [c Hp] Hrest]; subst.
    cbn [for_each]. cbv [bind fs_op]. unfold Fs.unlink at 1. rewrite Hp.
    rewrite IH.
    + reflexivity.
    + exact Hnd'.
    + cbn [fs set_fs]. rewrite Forall_forall in *. intros q Hq.
      destruct (Hrest q Hq) as [c' Hc']. exists c'.
      rewrite lookup_remove_other; [exact Hc'|].
      intros ->. contradiction.
Qed.

Lemma NoDup_map_filter {A B : Type} (f : A -> B) (P : A -> bool) (l : list A) :
  NoDup (map f l) -> NoDup (map f (filter P l)).
Proof.
  induction l as [|x l IH]; simpl; [constructor|].
  intros H. inversion H as [|? ? Hn Hnd]; subst.
  destruct (P x); simpl; [|auto].
  constructor; [|auto].
  intros Hin. apply Hn. apply in_map_iff in Hin as (y & Hy & Hin).
  apply in_map_iff. exists y. split; [exact Hy|].
  apply filter_In in Hin. tauto.
Qed.

Lemma glob_NoDup (l : FS) (dir : path) (pat : string) :
  unique_paths l -> NoDup (Fs.glob l dir pat).
Proof.
  intros H. unfold Fs.glob. destruct (Fs.is_dir l dir); [|constructor].
  apply NoDup_map_filter, H.
Qed.

Lemma unlink_all_filter (ps : list path) (l : FS) :
  unlink_all ps l =
  filter (fun e => forallb (fun p => negb (Fs.path_eqb p (fst e))) ps) l.
Proof.
  revert l; induction ps as [|p ps IH]; intros l.
  - simpl. induction l as [|e l IHl]; simpl; [reflexivity | now rewrite <- IHl].
  - change (unlink_all (p :: ps) l) with (unlink_all ps (Fs.remove p l)).
    rewrite IH. unfold Fs.remove.
    induction l as [|e l IHl]; simpl; [reflexivity|].
    destruct (Fs.path_eqb p (fst e)); simpl; [exact IHl|].
    destruct (forallb _ ps); simpl; now rewrite IHl.
Qed.

Lemma filter_none {A : Type} (P : A -> bool) (l : list A) :
  (forall x, In x l -> P x = false) -> filter P l = [].
Proof.
  induction l as [|x l IH]; simpl; [reflexivity|].
  intros H. rewrite (H x) by (left; reflexivity).
  apply IH. intros y Hy. apply H. right. exact Hy.
Qed.

(** After unlinking what [glob] found, nothing matching is left. *)
Lemma children_unlinked (l : FS) (dir : path) (pat : string) :
  filter (Fs.child_matching dir pat)
    (unlink_all (map fst (filter (Fs.child_matching dir pat) l)) l) = [].
Proof.
  rewrite unlink_all_filter. apply filter_none.
  intros e He. apply filter_In in He as [Hin Hkeep].
  destruct (Fs.child_matching dir pat e) eqn:E; [|reflexivity].
  exfalso.
  assert (Hfound : In (fst e) (map fst (filter (Fs.child_matching dir pat) l))).
  { apply in_map, filter_In. split; assumption. }
  rewrite forallb_forall in Hkeep. specialize (Hkeep _ Hfound).
  rewrite path_eqb_refl in Hkeep. discriminate.
Qed.

Lemma glob_after_unlink (l : FS) (dir : path) (pat : string) :
  Fs.glob (unlink_all (Fs.glob l dir pat) l) dir pat = [].
Proof.
  assert (G : Fs.glob l dir pat = map fst (filter (Fs.child_matching dir pat) l)
              \/ (Fs.glob l dir pat = [] /\ Fs.is_dir l dir = false)).
  { unfold Fs.glob. destruct (Fs.is_dir l dir); [left | right; split]; reflexivity. }
  destruct G as [G|[G D]]; rewrite G.
  - unfold Fs.glob. rewrite children_unlinked.
    match goal with |- (if ?c then _ else _) = _ => destruct c end; reflexivity.
  - simpl. unfold Fs.glob. now rewrite D.
Qed.

Lemma glob_after_remove_dir (l : FS) (dir : path) (pat : string) :
  dir <> [] -> Fs.glob (Fs.remove dir l) dir pat = [].
Proof.
  intros Hne. unfold Fs.glob, Fs.is_dir, Fs.lookup.
  destruct dir as [|a dir]; [contradiction|].
  now rewrite assoc_remove_same.
Qed.

Lemma removelast_self (p : path) : removelast p = p -> p = [].
Proof.
  intros H. destruct p as [|a p]; [reflexivity|]. exfalso.
  assert (E : a :: p = removelast (a :: p) ++ [last (a :: p) EmptyString])
    by (apply app_removelast_last; discriminate).
  rewrite H in E. apply (f_equal (@List.length string)) in E.
  rewrite length_app in E. simpl in E. lia.
Qed.

(** A directory is not among its own children. *)
Lemma glob_not_self (l : FS) (dir : path) (pat : string) :
  ~ In dir (Fs.glob l dir pat).
Proof.
  unfold Fs.glob. destruct (Fs.is_dir l dir); [|intros []].
  intros Hin. apply in_map_iff in Hin as (e & He & Hin).
  apply filter_In in Hin as [_ Hcm]. unfold Fs.child_matching in Hcm.
  rewrite He in Hcm. destruct dir as [|a dir]; [discriminate|].
  apply andb_true_iff in Hcm as [Hp _]. apply path_eqb_eq in Hp.
  apply removelast_self in Hp. discriminate.
Qed.

Lemma rmdir_ok (p : path) (l l' : FS) :
  Fs.rmdir p l = Ok l' -> p <> [] /\ l' = Fs.remove p l.
Proof.
  unfold Fs.rmdir. destruct p as [|a p]; [discriminate|].
  destruct (Fs.lookup l (a :: p)) as [[|c]|]; try discriminate.
  destruct (Fs.has_children l (a :: p)); [discriminate|].
  intros H; inversion H. split; [discriminate | reflexivity].
Qed.

(** With every frame a regular file, [delete_frames] unlinks them all and
    then tries the [rmdir], whose failure it swallows. *)
Lemma delete_frames_run (folder : path) (w : World) :
  unique_paths (fs w) ->
  Forall (is_file (fs w)) (Fs.glob (fs w) folder "*.jpg") ->
  delete_frames folder w =
  (Ok tt,
   set_fs (after_rmdir folder (unlink_all (Fs.glob (fs w) folder "*.jpg") (fs w))) w).
Proof.
  intros Hu Hfiles.
  cbv [delete_frames bind glob get_fs ret].
  rewrite (unlink_loop _ w (glob_NoDup _ _ _ Hu) Hfiles).
  cbv [try_except fs_op after_rmdir]. cbn [fs set_fs].
  destruct (Fs.rmdir folder _); reflexivity.
Qed.

Lemma after_rmdir_glob (folder : path) (pat : string) (l : FS) :
  Fs.glob l folder pat = [] -> Fs.glob (after_rmdir folder l) folder pat = [].
Proof.
  intros H. unfold after_rmdir.
  destruct (Fs.rmdir folder l) as [l'|e] eqn:R; [|exact H].
  apply rmdir_ok in R as [Hne ->]. apply glob_after_remove_dir, Hne.
Qed.

Lemma after_rmdir_lookup (folder q : path) (l : FS) :
  q <> folder -> Fs.lookup (after_rmdir folder l) q = Fs.lookup l q.
Proof.
  intros Hq. unfold after_rmdir.
  destruct (Fs.rmdir folder l) as [l'|e] eqn:R; [|reflexivity].
  apply rmdir_ok in R as [_ ->]. apply lookup_remove_other, Hq.
Qed.

(** X12: when the listing has each path once and every [*.jpg] entry of
    the folder is a regular file, [delete_frames] returns normally, also
    when the folder cannot be removed; afterwards no [*.jpg] entry is
    left in the folder, every entry other than those frames and the
    folder itself is as it was, and the folder is gone if it was a
    directory holding nothing but frames. *)
Theorem delete_frames_cleans (folder : path) (w : World) :
  let found := Fs.glob (fs w) folder "*.jpg" in
  unique_paths (fs w) ->
  Forall (is_file (fs w)) found ->
  exists w',
    delete_frames folder w = (Ok tt, w') /\
    Fs.glob (fs w') folder "*.jpg" = [] /\
    (forall q, q <> folder -> ~ In q found ->
               Fs.lookup (fs w') q = Fs.lookup (fs w) q) /\
    trace w' = trace w /\ live w' = live w /\
    (folder <> [] -> Fs.is_dir (fs w) folder = true ->
     (forall e, In e (fs w) ->
                Fs.child_matching folder "*" e = true ->
                Fs.child_matching folder "*.jpg" e = true) ->
     Fs.exists_ (fs w') folder = false).
Proof.
  cbv zeta. intros Hu Hfiles.
  set (found := Fs.glob (fs w) folder "*.jpg") in *.
  set (l' := unlink_all found (fs w)).
  eexists. split; [apply delete_frames_run; assumption|].
  fold found l'. cbn [fs trace live set_fs].
  split; [apply after_rmdir_glob, glob_after_unlink|].
  split.
  { intros q Hq Hnq. rewrite after_rmdir_lookup by exact Hq.
    apply lookup_unlink_all_other, Hnq. }
  split; [reflexivity|]. split; [reflexivity|].
  intros Hne Hdir Honly.
  assert (Hself : Fs.lookup l' folder = Fs.lookup (fs w) folder)
    by apply lookup_unlink_all_other, glob_not_self.
  assert (Hc : Fs.has_children l' folder = false).
  { unfold Fs.has_children.
    destruct (existsb _ l') eqn:Ex; [|reflexivity]. exfalso.
    apply existsb_exists in Ex as (e0 & Hin & Hcm).
    unfold l' in Hin. rewrite unlink_all_filter in Hin.
    apply filter_In in Hin as [Hin Hkeep].
    assert (Hf : In (fst e0) found).
    { unfold found, Fs.glob. rewrite Hdir.
      apply in_map, filter_In. split; [exact Hin | apply Honly; assumption]. }
    rewrite forallb_forall in Hkeep. specialize (Hkeep _ Hf).
    rewrite path_eqb_refl in Hkeep. discriminate. }
  unfold Fs.is_dir in Hdir.
  destruct folder as [|a folder]; [contradiction|].
  unfold after_rmdir, Fs.rmdir. rewrite Hself, Hc.
  destruct (Fs.lookup (fs w) (a :: folder)) as [[|c]|]; try discriminate.
  unfold Fs.exists_, Fs.lookup. now rewrite assoc_remove_same.
Qed.

Lemma delete_frames_cleans_witness :
  exists w',
    delete_frames ["pdf"; "001"] (world_of with_frames) = (Ok tt, w') /\
    Fs.glob (fs w') ["pdf"; "001"] "*.jpg" = [] /\
    Fs.lookup (fs w') ["video"; "001 a.mp4"] = Some (File Raw) /\
    Fs.exists_ (fs w') ["pdf"; "001"] = false.
Proof.
  destruct (delete_frames_cleans ["pdf"; "001"] (world_of with_frames))
    as (w' & Hrun & Hg & Hother & _ & _ & Hgone).
  - unfold unique_paths. vm_compute.
    repeat (constructor; [simpl; intuition discriminate|]). constructor.
  - vm_compute. repeat constructor; eexists; reflexivity.
  - exists w'. split; [exact Hrun|]. split; [exact Hg|]. split.
    + rewrite Hother; [reflexivity | discriminate|].
      vm_compute. intuition discriminate.
    + apply Hgone; [discriminate | reflexivity|].
      intros e Hin. vm_compute in Hin.
      repeat (destruct Hin as [<-|Hin]; [vm_compute; auto|]). destruct Hin.
Defined.

(** A file that is no frame keeps the folder in place, without an error. *)
Example delete_frames_leftover :
  fst (delete_frames ["pdf"; "001"] (world_of with_leftover)) = Ok tt /\
  Fs.glob (fs (snd (delete_frames ["pdf"; "001"] (world_of with_leftover))))
    ["pdf"; "001"] "*"
  = [["pdf"; "001"; "notes.txt"]].
Proof. split; reflexivity. Qed.

(** A directory named like a frame makes [unlink], and so the cleanup,
    raise. *)
Example delete_frames_jpg_directory :
  fst (delete_frames ["pdf"; "001"] (world_of with_jpg_dir))
  = Raise (IsADirectoryError ["pdf"; "001"; "x.jpg"]).
Proof. reflexivity. Qed.

(** ** One video, from the tool's frames to the PDF *)









Section EndToEnd.

Variable ffmpeg : list string -> FS -> FS.
Variable video_path : path.

Let name := Path.name video_path.
Let dir := img_dir_of name.


End EndToEnd.



(** ** Numbers and patterns *)




Lemma fnmatch_star_cons (pat s : string) (c : ascii) :
  Fs.fnmatch (String "*" pat) s = true ->
  Fs.fnmatch (String "*" pat) (String c s) = true.
Proof.
  intros H.
  change (Fs.fnmatch (String "*" pat) (String c s))
    with (Fs.fnmatch pat (String c s) || Fs.fnmatch (String "*" pat) s).
  rewrite H. apply orb_true_r.
Qed.

Lemma fnmatch_frame_is_jpg (name : string) :
  Fs.fnmatch "frame_*.jpg" name = true -> Fs.fnmatch "*.jpg" name = true.
Proof.
  intros H.
  do 6 (destruct name as [|? name]; [discriminate|];
        cbn [Fs.fnmatch] in H;
        match type of H with
        | (if ?b then _ else _) = true => change b with false in H; cbv iota in H
        end;
        apply andb_true_iff in H as [_ H]).
  do 6 apply fnmatch_star_cons. exact H.
Qed.

(** X15: every frame that makes [extract_frames] skip the tool is a frame
    that [images_to_pdf] puts in the PDF and [delete_frames] removes:
    what matches [frame_*.jpg] matches [*.jpg]. *)
Theorem frames_checked_are_frames_used (l : FS) (dir q : path) :
  In q (Fs.glob l dir "frame_*.jpg") -> In q (Fs.glob l dir "*.jpg").
Proof.
  unfold Fs.glob. destruct (Fs.is_dir l dir); [|intros []].
  intros Hin. apply in_map_iff in Hin as (e & He & Hin).
  apply filter_In in Hin as [Hin Hcm].
  apply in_map_iff. exists e. split; [exact He|].
  apply filter_In. split; [exact Hin|].
  unfold Fs.child_matching in *.
  destruct (fst e) as [|a p]; [discriminate|].
  apply andb_true_iff in Hcm as [Hp Hm].
  rewrite Hp. apply fnmatch_frame_is_jpg, Hm.
Qed.

Lemma frames_checked_are_frames_used_witness :
  In frame_1 (Fs.glob with_frames ["pdf"; "001"] "*.jpg").
Proof.
  apply (frames_checked_are_frames_used with_frames ["pdf"; "001"] frame_1).
  vm_compute. tauto.
Defined.
